(** * VibeClaw: skill installer, security gate and registry

    A shallow embedding of [src/src/skill-installer.ts] (the later, sanitizing
    version of the module) and of the [checkSecurity] gate of the tools module
    ([src/unnamed/part_000]).

    - JavaScript strings are [string] (byte strings; a UTF-16 code unit outside
      ASCII only ever matters through the sanitizer, which drops it in either
      representation).
    - [node:path] is modelled for POSIX ([path.sep = "/"]): [path.join],
      [path.normalize] and [path.resolve] with the segment algorithm of Node's
      [normalizeString].
    - The filesystem and the network are effects of a small state-and-exception
      monad.  The world keeps the initial filesystem and the log of every
      operation performed; the current filesystem is the replay of the log, so
      the intermediate states of a run are the replays of the prefixes of its
      log. *)

From stdpp Require Import base list gmap sets strings.
From Stdlib Require Import ZArith Ascii.

Local Open Scope Z_scope.

(* ------------------------------------------------------------------ *)
(** ** String primitives of JavaScript *)

Module Str.

Definition chr (n : nat) : string := String (ascii_of_nat n) EmptyString.
(** the double quote and the newline *)
Definition dq : string := chr 34.
Definition nl : string := chr 10.

(** [s.startsWith(p)] *)
Fixpoint startsWith (p s : string) : bool :=
  match p, s with
  | EmptyString, _ => true
  | String c p', String d s' => Ascii.eqb c d && startsWith p' s'
  | String _ _, EmptyString => false
  end.

(** drop the first [n] characters *)
Fixpoint drop (n : nat) (s : string) : string :=
  match n, s with
  | O, _ => s
  | S n', String _ s' => drop n' s'
  | S _, EmptyString => EmptyString
  end.

Fixpoint find_from (p t : string) (i : nat) : Z :=
  if startsWith p t then Z.of_nat i
  else match t with
       | EmptyString => -1
       | String _ t' => find_from p t' (S i)
       end.

(** [s.indexOf(p, from)]: the search position is clamped to the length *)
Definition indexOf (p s : string) (from : nat) : Z :=
  let from' := Nat.min from (String.length s) in
  find_from p (drop from' s) from'.

(** [s.includes(p)] *)
Definition includes (p s : string) : bool := 0 <=? indexOf p s 0.

(** decimal rendering of an integral JavaScript number *)
Definition digit (d : Z) : ascii := ascii_of_nat (48 + Z.to_nat d).

Fixpoint digits (fuel : nat) (n : Z) (acc : string) : string :=
  match fuel with
  | O => acc
  | S f =>
      let acc' := String (digit (n mod 10)) acc in
      if n <? 10 then acc' else digits f (n / 10) acc'
  end.

Definition of_Z (n : Z) : string :=
  match n with
  | Z0 => "0"
  | Zpos p => digits (Pos.size_nat p) (Zpos p) ""
  | Zneg p => "-" +:+ digits (Pos.size_nat p) (Zpos p) ""
  end.

(** [xs.join(sep)] *)
Definition join (sep : string) (xs : list string) : string := String.concat sep xs.

End Str.

(* ------------------------------------------------------------------ *)
(** ** The security gate ([checkSecurity], tools module) *)

Record CiscoScan := {
  is_safe : bool;
  max_severity : string;
  findings_count : Z
}.

(** The fields of [VibeResource] that the gate and the install tool read. *)
Record VibeResource := {
  res_name : string;
  github_owner : option string;
  github_repo : option string;
  stars : Z;
  security_score : option Z;
  security_flags : option (list string);
  cisco_scan_result : option CiscoScan
}.

(** [skill.security_flags?.length ? ... : ""] *)
Definition flags_line (skill : VibeResource) : string :=
  match security_flags skill with
  | Some ((_ :: _) as fl) => "  Flags: " +:+ Str.join ", " fl +:+ Str.nl
  | _ => ""
  end.

Definition cisco_block_msg (skill : VibeResource) (c : CiscoScan) : string :=
  "⛔ BLOCKED: " +:+ Str.dq +:+ res_name skill +:+ Str.dq
  +:+ " failed Vibe Index security scan." +:+ Str.nl +:+ Str.nl
  +:+ "  Severity: " +:+ max_severity c +:+ Str.nl
  +:+ "  Findings: " +:+ Str.of_Z (findings_count c)
  +:+ " issue(s) detected" +:+ Str.nl
  +:+ flags_line skill
  +:+ Str.nl +:+ "This skill has known security issues and cannot be installed."
  +:+ Str.nl +:+ "See https://vibeindex.ai for details.".

Definition score_block_msg (skill : VibeResource) (sc : Z) : string :=
  "⛔ BLOCKED: " +:+ Str.dq +:+ res_name skill +:+ Str.dq
  +:+ " has a high security risk score (" +:+ Str.of_Z sc +:+ ")."
  +:+ Str.nl +:+ Str.nl
  +:+ flags_line skill
  +:+ Str.nl
  +:+ "This skill has been flagged by Vibe Index security scanning and cannot be installed."
  +:+ Str.nl +:+ "See https://vibeindex.ai for details.".

(** the second test: [skill.security_score !== null && skill.security_score >= 25] *)
Definition score_gate (skill : VibeResource) : option string :=
  match security_score skill with
  | Some sc => if 25 <=? sc then Some (score_block_msg skill sc) else None
  | None => None
  end.

(** [skill.cisco_scan_result && !skill.cisco_scan_result.is_safe] first *)
Definition checkSecurity (skill : VibeResource) : option string :=
  match cisco_scan_result skill with
  | Some c => if negb (is_safe c) then Some (cisco_block_msg skill c) else score_gate skill
  | None => score_gate skill
  end.

(* ------------------------------------------------------------------ *)
(** ** [node:path] for POSIX *)

Module NPath.

Definition slash : ascii := "/"%char.

(** [p.split("/")] *)
Fixpoint split (p : string) : list string :=
  match p with
  | EmptyString => [""]
  | String c p' =>
      if Ascii.eqb c slash then "" :: split p'
      else match split p' with
           | h :: t => String c h :: t
           | [] => [String c ""]
           end
  end.

(** [segs.join("/")] *)
Definition join_segs (segs : list string) : string := Str.join "/" segs.

Definition isAbsolute (p : string) : bool := Str.startsWith "/" p.

(** one segment of Node's [normalizeString]; the stack holds the result
    segments in reverse order *)
Definition norm_step (allowAboveRoot : bool) (stk : list string) (seg : string)
  : list string :=
  if String.eqb seg "" || String.eqb seg "." then stk
  else if String.eqb seg ".." then
    match stk with
    | top :: rest => if String.eqb top ".." then (if allowAboveRoot then ".." :: stk else stk)
                     else rest
    | [] => if allowAboveRoot then [".."] else []
    end
  else seg :: stk.

Definition normalizeString (p : string) (allowAboveRoot : bool) : string :=
  join_segs (rev (foldl (norm_step allowAboveRoot) [] (split p))).

Definition endsWithSlash (p : string) : bool :=
  match String.get (String.length p - 1) p with
  | Some c => Ascii.eqb c slash
  | None => false
  end.

(** [path.normalize] *)
Definition normalize (p : string) : string :=
  if String.eqb p "" then "." else
  let abs := isAbsolute p in
  let trailing := endsWithSlash p in
  let q := normalizeString p (negb abs) in
  if String.eqb q "" then (if abs then "/" else if trailing then "./" else ".")
  else
    let q' := if trailing then q +:+ "/" else q in
    if abs then "/" +:+ q' else q'.

(** [path.join(...args)] *)
Definition join (args : list string) : string :=
  match filter (fun a => negb (String.eqb a "")) args with
  | [] => "."
  | ne => normalize (join_segs ne)
  end.

(** the right-to-left loop of [path.resolve]; the last element of [paths]
    is [process.cwd()] *)
Fixpoint resolve_loop (paths : list string) (acc : string) : string * bool :=
  match paths with
  | [] => (acc, false)
  | p :: rest =>
      if String.eqb p "" then resolve_loop rest acc
      else
        let acc' := p +:+ "/" +:+ acc in
        if isAbsolute p then (acc', true) else resolve_loop rest acc'
  end.

(** [path.resolve(...args)] in a process whose working directory is [cwd] *)
Definition resolve (cwd : string) (args : list string) : string :=
  let '(rp, abs) := resolve_loop (rev args ++ [cwd]) "" in
  let q := normalizeString rp (negb abs) in
  if abs then "/" +:+ q else if String.eqb q "" then "." else q.

End NPath.

(* ------------------------------------------------------------------ *)
(** ** Filesystem and network *)

(** a filesystem: file contents by path, the set of directories, and the
    files the process may see but not read *)
Record fsys := {
  files : gmap string string;
  dirs : gset string;
  noread : gset string
}.

Inductive op :=
| OAccess (p : string)
| OFetch (url : string)
| OMkdir (p : string)
| OWrite (p : string) (content : string)
| ORm (p : string)
| OReaddir (p : string).

Definition is_file (fs : fsys) (p : string) : bool :=
  match files fs !! p with Some _ => true | None => false end.
Definition is_dir (fs : fsys) (p : string) : bool := bool_decide (p ∈ dirs fs).

(** [fs.access(p)] with the default mode [F_OK]: existence only *)
Definition exists_path (fs : fsys) (p : string) : bool := is_file fs p || is_dir fs p.

(** the directories [mkdir -p] creates: every non-empty prefix of [p] *)
Definition prefixes (p : string) : list string :=
  let segs := NPath.split p in
  filter (fun q => negb (String.eqb q ""))
    (map (fun k => NPath.join_segs (take k segs)) (seq 1 (length segs))).

Definition can_mkdir (fs : fsys) (p : string) : bool :=
  forallb (fun q => negb (is_file fs q)) (prefixes p).

Definition parent (p : string) : string := NPath.join_segs (removelast (NPath.split p)).

(** [fs.writeFile(p, _)] needs the parent directory and [p] not a directory *)
Definition can_write (fs : fsys) (p : string) : bool :=
  negb (is_dir fs p) && (String.eqb (parent p) "" || is_dir fs (parent p)).

(** [p] itself or a path below it *)
Definition at_or_below (p k : string) : bool :=
  String.eqb k p || Str.startsWith (p +:+ "/") k.

Fixpoint strip_prefix (pre s : string) : option string :=
  match pre, s with
  | EmptyString, _ => Some s
  | String c pre', String d s' => if Ascii.eqb c d then strip_prefix pre' s' else None
  | String _ _, EmptyString => None
  end.

Fixpoint no_slash (n : string) : bool :=
  match n with
  | EmptyString => true
  | String c n' => negb (Ascii.eqb c NPath.slash) && no_slash n'
  end.

(** the name of a direct child of [d] *)
Definition child_name (d k : string) : option string :=
  match strip_prefix (d +:+ "/") k with
  | Some n => if String.eqb n "" || negb (no_slash n) then None else Some n
  | None => None
  end.

Definition child_set (fs : fsys) (d : string) : gset string :=
  list_to_set (omap (child_name d) (elements (dom (files fs) ∪ dirs fs))).

(** [fs.readdir(d, { withFileTypes: true })]: names and [isDirectory()] *)
Definition entries (fs : fsys) (d : string) : list (string * bool) :=
  map (fun n => (n, is_dir fs (d +:+ "/" +:+ n))) (elements (child_set fs d)).

Definition step (fs : fsys) (o : op) : fsys :=
  match o with
  | OAccess _ | OFetch _ | OReaddir _ => fs
  | OMkdir p =>
      if can_mkdir fs p then
        {| files := files fs; dirs := dirs fs ∪ list_to_set (prefixes p); noread := noread fs |}
      else fs
  | OWrite p c =>
      if can_write fs p then
        {| files := <[p := c]> (files fs); dirs := dirs fs; noread := noread fs |}
      else fs
  | ORm p =>
      if exists_path fs p then
        {| files := filter (fun kv => negb (at_or_below p kv.1)) (files fs);
           dirs := filter (fun k => negb (at_or_below p k)) (dirs fs);
           noread := noread fs |}
      else fs
  end.

(** the network: [None] is a rejected [fetch] (or [text()]), otherwise
    [(response.ok, body)] *)
Abbreviation network := (string -> option (bool * string)).

Record world := {
  w_fs0 : fsys;
  w_log : list op;
  w_net : network;
  w_now : string
}.

Definition replay (fs : fsys) (ops : list op) : fsys := foldl step fs ops.

(** the current filesystem *)
Definition cur (w : world) : fsys := replay (w_fs0 w) (w_log w).

Definition emit (o : op) (w : world) : world :=
  {| w_fs0 := w_fs0 w; w_log := w_log w ++ [o]; w_net := w_net w; w_now := w_now w |}.

(* ------------------------------------------------------------------ *)
(** ** The effect monad: state with exceptions (rejected promises) *)

Inductive outcome (A : Type) := Ok (a : A) | Exc (e : string).
Arguments Ok {A} a.
Arguments Exc {A} e.

Definition M (A : Type) : Type := world -> outcome A * world.

Global Instance M_ret : MRet M := fun A a w => (Ok a, w).
Global Instance M_bind : MBind M := fun A B f m w =>
  match m w with
  | (Ok a, w') => f a w'
  | (Exc e, w') => (Exc e, w')
  end.

(** [try { m } catch { h }] *)
Definition try_catch {A} (m : M A) (h : string -> M A) : M A := fun w =>
  match m w with
  | (Ok a, w') => (Ok a, w')
  | (Exc e, w') => h e w'
  end.

Definition guarded (o : op) (ok : fsys -> bool) (err : string) : M unit := fun w =>
  (if ok (cur w) then Ok tt else Exc err, emit o w).

Definition fs_access (p : string) : M unit := guarded (OAccess p) (fun fs => exists_path fs p) "ENOENT".
Definition fs_mkdir_p (p : string) : M unit := guarded (OMkdir p) (fun fs => can_mkdir fs p) "ENOTDIR".
Definition fs_writeFile (p c : string) : M unit := guarded (OWrite p c) (fun fs => can_write fs p) "ENOENT".
Definition fs_rm_rf (p : string) : M unit := guarded (ORm p) (fun fs => exists_path fs p) "ENOENT".

Definition fs_readdir (d : string) : M (list (string * bool)) := fun w =>
  (if is_dir (cur w) d then Ok (entries (cur w) d) else Exc "ENOENT", emit (OReaddir d) w).

Definition fetch (url : string) : M (bool * string) := fun w =>
  (match w_net w url with Some r => Ok r | None => Exc "fetch failed" end, emit (OFetch url) w).

(** [new Date().toISOString()] *)
Definition now : M string := fun w => (Ok (w_now w), w).

(* ------------------------------------------------------------------ *)
(** ** [JSON.stringify] of the flat metadata object, indent 2 *)

Module Json.

Definition hex (d : nat) : ascii := if Nat.ltb d 10 then ascii_of_nat (48 + d) else ascii_of_nat (87 + d).

Definition escape_char (c : ascii) : string :=
  let n := nat_of_ascii c in
  let bs := Str.chr 92 in
  if Nat.eqb n 34 then bs +:+ Str.dq
  else if Nat.eqb n 92 then bs +:+ bs
  else if Nat.eqb n 8 then bs +:+ "b"
  else if Nat.eqb n 12 then bs +:+ "f"
  else if Nat.eqb n 10 then bs +:+ "n"
  else if Nat.eqb n 13 then bs +:+ "r"
  else if Nat.eqb n 9 then bs +:+ "t"
  else if Nat.ltb n 32 then bs +:+ "u00" +:+ String (hex (n / 16)) (String (hex (n mod 16)) "")
  else String c "".

Fixpoint escape (s : string) : string :=
  match s with
  | EmptyString => ""
  | String c s' => escape_char c +:+ escape s'
  end.

Definition quote (s : string) : string := Str.dq +:+ escape s +:+ Str.dq.

Definition stringify_obj (kvs : list (string * string)) : string :=
  "{" +:+ Str.nl
  +:+ Str.join ("," +:+ Str.nl) (map (fun kv => "  " +:+ quote kv.1 +:+ ": " +:+ quote kv.2) kvs)
  +:+ Str.nl +:+ "}".

End Json.

(* ------------------------------------------------------------------ *)
(** ** The installer ([skill-installer.ts]) *)

Record InstallResult := {
  success : bool;
  skillName : string;
  installPath : option string;
  sourceUrl : option string;
  error : option string;
  alreadyInstalled : option bool
}.

Section Installer.

(** [SKILLS_DIR = path.join(CONFIG_DIR, "skills")] and [process.cwd()] *)
Variable SKILLS_DIR : string.
Variable cwd : string.

(** the class [[a-zA-Z0-9\-_.]] *)
Definition allowed_char (c : ascii) : bool :=
  let n := nat_of_ascii c in
  (Nat.leb 97 n && Nat.leb n 122) || (Nat.leb 65 n && Nat.leb n 90)
  || (Nat.leb 48 n && Nat.leb n 57) || Nat.eqb n 45 || Nat.eqb n 95 || Nat.eqb n 46.

(** [name.replace(/[^a-zA-Z0-9\-_.]/g, "")] *)
Fixpoint strip (s : string) : string :=
  match s with
  | EmptyString => EmptyString
  | String c s' => if allowed_char c then String c (strip s') else strip s'
  end.

Definition sanitizeSkillName (name : string) : option string :=
  let sanitized := strip name in
  if String.eqb sanitized "" || Str.includes ".." sanitized || Str.startsWith "." sanitized
  then None
  else
    let resolved := NPath.resolve cwd [SKILLS_DIR; sanitized] in
    if Str.startsWith (SKILLS_DIR +:+ "/") resolved then Some sanitized else None.

Definition getSkillMdUrls (owner repo skillName : string) : list string :=
  let base := "https://raw.githubusercontent.com/" +:+ owner +:+ "/" +:+ repo in
  [ base +:+ "/main/skills/" +:+ skillName +:+ "/SKILL.md";
    base +:+ "/master/skills/" +:+ skillName +:+ "/SKILL.md";
    base +:+ "/main/SKILL.md";
    base +:+ "/master/SKILL.md";
    base +:+ "/main/src/skills/" +:+ skillName +:+ "/SKILL.md";
    base +:+ "/master/src/skills/" +:+ skillName +:+ "/SKILL.md" ].

(** [content.startsWith("---") && content.indexOf("---", 3) > 3 && content.includes("name:")] *)
Definition looksLikeSkillMd (content : string) : bool :=
  Str.startsWith "---" content && (3 <? Str.indexOf "---" content 3)
  && Str.includes "name:" content.

(** one iteration of the [for] loop, inside its [try] *)
Definition try_url (url : string) : M (option (string * string)) :=
  try_catch
    (resp ← fetch url;
     let '(ok, content) := resp in
     if ok && looksLikeSkillMd content then mret (Some (content, url)) else mret None)
    (fun _ => mret None).

Fixpoint probe (urls : list string) : M (option (string * string)) :=
  match urls with
  | [] => mret None
  | url :: rest =>
      r ← try_url url;
      match r with
      | Some hit => mret (Some hit)
      | None => probe rest
      end
  end.

Definition downloadSkillMd (owner repo skillName : string) : M (option (string * string)) :=
  probe (getSkillMdUrls owner repo skillName).

Definition invalid_msg (skillName : string) : string :=
  "Invalid skill name " +:+ Str.dq +:+ skillName +:+ Str.dq
  +:+ ". Names must be alphanumeric with hyphens/underscores only.".

Definition notfound_msg (owner repo skillName : string) : string :=
  "Could not find SKILL.md for " +:+ Str.dq +:+ skillName +:+ Str.dq +:+ " in "
  +:+ owner +:+ "/" +:+ repo +:+ ". Tried multiple paths.".

Definition meta_json (installedAt owner repo url skillName : string) : string :=
  Json.stringify_obj
    [("installedBy", "vibeclaw"); ("installedAt", installedAt);
     ("source", "github:" +:+ owner +:+ "/" +:+ repo); ("sourceUrl", url);
     ("skillName", skillName)].

(** [opts?.force] is [force] ([undefined] is [false]) *)
Definition installSkillFromGitHub (owner repo skillName : string) (force : bool)
  : M InstallResult :=
  match sanitizeSkillName skillName with
  | None =>
      mret {| success := false; skillName := skillName; installPath := None;
              sourceUrl := None; error := Some (invalid_msg skillName);
              alreadyInstalled := None |}
  | Some safeName =>
      let skillDir := NPath.join [SKILLS_DIR; safeName] in
      let skillFile := NPath.join [skillDir; "SKILL.md"] in
      early ← try_catch
                (_ ← fs_access skillFile;
                 if negb force then
                   mret (Some {| success := true; skillName := skillName;
                                 installPath := Some skillDir; sourceUrl := None;
                                 error := None; alreadyInstalled := Some true |})
                 else mret None)
                (fun _ => mret None);
      match early with
      | Some r => mret r
      | None =>
          result ← downloadSkillMd owner repo skillName;
          match result with
          | None =>
              mret {| success := false; skillName := skillName; installPath := None;
                      sourceUrl := None; error := Some (notfound_msg owner repo skillName);
                      alreadyInstalled := None |}
          | Some (content, url) =>
              _ ← fs_mkdir_p skillDir;
              _ ← fs_writeFile skillFile content;
              installedAt ← now;
              _ ← fs_writeFile (NPath.join [skillDir; ".vibeclaw.json"])
                    (meta_json installedAt owner repo url skillName);
              mret {| success := true; skillName := skillName; installPath := Some skillDir;
                      sourceUrl := Some url; error := None; alreadyInstalled := None |}
          end
      end
  end.

(** the body of the loop over [entries] *)
Definition list_entry (e : string * bool) : M (list string) :=
  if e.2 then
    try_catch (_ ← fs_access (NPath.join [SKILLS_DIR; e.1; ".vibeclaw.json"]); mret [e.1])
              (fun _ => mret [])
  else mret [].

Fixpoint list_loop (es : list (string * bool)) : M (list string) :=
  match es with
  | [] => mret []
  | e :: rest => x ← list_entry e; xs ← list_loop rest; mret (x ++ xs)
  end.

Definition listInstalledSkills : M (list string) :=
  try_catch (es ← fs_readdir SKILLS_DIR; list_loop es) (fun _ => mret []).

Definition uninstallSkill (skillName : string) : M bool :=
  match sanitizeSkillName skillName with
  | None => mret false
  | Some safeName =>
      let skillDir := NPath.join [SKILLS_DIR; safeName] in
      let metaPath := NPath.join [skillDir; ".vibeclaw.json"] in
      try_catch (_ ← fs_access metaPath; _ ← fs_rm_rf skillDir; mret true)
                (fun _ => mret false)
  end.

End Installer.

(* ------------------------------------------------------------------ *)
(** ** The agent tools ([tools] module): badge, install and manage *)

(** [skill.security_score === 0], [> 0 && < 25] and the fallback *)
Definition formatSecurityBadge (skill : VibeResource) : string :=
  let by_score :=
    match security_score skill with
    | Some sc =>
        if sc =? 0 then "🛡️ Pre-scanned (no issues)"
        else if (0 <? sc) && (sc <? 25) then "⚠️ Minor flags (score: " +:+ Str.of_Z sc +:+ ")"
        else "🔍 Scan pending"
    | None => "🔍 Scan pending"
    end in
  match cisco_scan_result skill with
  | Some c => if is_safe c then "🛡️ Verified safe (Cisco scan)" else by_score
  | None => by_score
  end.

(** a search hit: the gate's fields and the two the install tool prints *)
Record ToolResource := {
  tr_res : VibeResource;
  github_url : option string;
  description : option string
}.

(** JavaScript truthiness of an optional string: present and non-empty *)
Definition truthy (o : option string) : bool :=
  match o with Some x => negb (String.eqb x "") | None => false end.

(** [${x}] of an optional string: [undefined] when absent *)
Definition js_opt (o : option string) : string :=
  match o with Some x => x | None => "undefined" end.

(** [!opts?.force] negated: [force] is [args.force] *)
Definition force_flag (force : option bool) : bool :=
  match force with Some b => b | None => false end.

Definition tool_notfound_msg (query : string) : string :=
  "Could not find skill " +:+ Str.dq +:+ query +:+ Str.dq +:+ " in Vibe Index.".

Definition norepo_msg (skill : ToolResource) : string :=
  "Found " +:+ Str.dq +:+ res_name (tr_res skill) +:+ Str.dq
  +:+ " but it has no GitHub repository. Cannot install automatically." +:+ Str.nl
  +:+ (if truthy (github_url skill) then "Manual link: " +:+ js_opt (github_url skill) else "").

Definition install_error_msg (e : string) : string := "Error installing skill: " +:+ e.

(** the text the install tool returns for an [InstallResult] *)
Definition install_output (skill : ToolResource) (r : InstallResult) : string :=
  if negb (success r) then
    "Failed to install " +:+ Str.dq +:+ res_name (tr_res skill) +:+ Str.dq +:+ ": " +:+ js_opt (error r)
  else if match alreadyInstalled r with Some true => true | _ => false end then
    Str.dq +:+ res_name (tr_res skill) +:+ Str.dq +:+ " is already installed at "
    +:+ js_opt (installPath r) +:+ "." +:+ Str.nl
    +:+ "Use force: true to reinstall." +:+ Str.nl
    +:+ "The skill is available in your next agent session."
  else
    "✓ Installed " +:+ Str.dq +:+ skillName r +:+ Str.dq +:+ " successfully!" +:+ Str.nl +:+ Str.nl
    +:+ "  Location: " +:+ js_opt (installPath r) +:+ Str.nl
    +:+ "  Source: " +:+ js_opt (sourceUrl r) +:+ Str.nl
    +:+ "  Stars: ⭐ " +:+ Str.of_Z (stars (tr_res skill)) +:+ Str.nl
    +:+ "  Security: " +:+ formatSecurityBadge (tr_res skill) +:+ Str.nl
    +:+ (if truthy (description skill) then "  Description: " +:+ js_opt (description skill) +:+ Str.nl
         else "")
    +:+ Str.nl +:+ "**The skill will be available in your next agent session.**" +:+ Str.nl
    +:+ "Restart the agent or start a new session to use it.".

Definition uninstall_prompt_msg : string := "Please specify which skill to uninstall.".
Definition no_skills_msg : string := "No skills installed via VibeClaw yet.".

Section Tools.
Variable SKILLS_DIR : string.
Variable cwd : string.

(** [vibeclaw_install]'s [execute]; [search] is the Vibe Index's answer to
    [client.search(query, { type: "skill", limit: 1 })]: [Exc] when the
    request rejects, otherwise [(success, data)] *)
Definition install_tool_execute (search : string -> outcome (bool * list ToolResource))
    (query : string) (force : option bool) : M string :=
  try_catch
    (match search query with
     | Exc e => fun w => (Exc e, w)
     | Ok (true, skill :: _) =>
         match github_owner (tr_res skill), github_repo (tr_res skill) with
         | Some owner, Some repo =>
             if String.eqb owner "" || String.eqb repo "" then mret (norepo_msg skill)
             else
               let install :=
                 r ← installSkillFromGitHub SKILLS_DIR cwd owner repo (res_name (tr_res skill))
                       (force_flag force);
                 mret (install_output skill r) in
               match checkSecurity (tr_res skill) with
               | Some block => if String.eqb block "" then install else mret block
               | None => install
               end
         | _, _ => mret (norepo_msg skill)
         end
     | Ok _ => mret (tool_notfound_msg query)
     end)
    (fun e => mret (install_error_msg e)).

(** [vibeclaw_manage]'s [execute] *)
Definition manage_execute (action : string) (skillName : option string) : M string :=
  if String.eqb action "list" then
    skills ← listInstalledSkills SKILLS_DIR;
    mret (match skills with
          | [] => no_skills_msg
          | _ =>
              foldl (fun out name => out +:+ "  - " +:+ name +:+ Str.nl)
                ("VibeClaw-installed skills (" +:+ Str.of_Z (Z.of_nat (length skills)) +:+ "):"
                 +:+ Str.nl +:+ Str.nl)
                skills
          end)
  else if String.eqb action "uninstall" then
    match skillName with
    | Some n =>
        if String.eqb n "" then mret uninstall_prompt_msg
        else
          removed ← uninstallSkill SKILLS_DIR cwd n;
          mret (if (removed : bool) then
                  "✓ Uninstalled " +:+ Str.dq +:+ n +:+ Str.dq +:+ ". It will be removed on next session."
                else Str.dq +:+ n +:+ Str.dq +:+ " was not found or was not installed via VibeClaw.")
    | None => mret uninstall_prompt_msg
    end
  else mret ("Unknown action: " +:+ action).

End Tools.

(* ------------------------------------------------------------------ *)
(** ** Notions the properties are stated with *)

(** [p] occurs in [s] at index [i] *)
Definition occurs_at (p s : string) (i : nat) : Prop := Str.startsWith p (Str.drop i s) = true.

(** the reading of the validation in which [name:] sits between the
    opening delimiter and the next one *)
Definition name_between_delims (content : string) : bool :=
  Str.includes "name:"
    (String.substring 3 (Z.to_nat (Str.indexOf "---" content 3) - 3) content).

(** a candidate that answers with status ok and a body that passes the
    validation *)
Definition hit (net : network) (url : string) : option string :=
  match net url with
  | Some (true, c) => if looksLikeSkillMd c then Some c else None
  | _ => None
  end.

(** a world with [ops] appended to its log *)
Definition emits (ops : list op) (w : world) : world :=
  {| w_fs0 := w_fs0 w; w_log := w_log w ++ ops; w_net := w_net w; w_now := w_now w |}.

(** a path segment that normalization keeps as it is *)
Definition good_seg (x : string) : bool :=
  negb (String.eqb x "") && negb (String.eqb x ".") && negb (String.eqb x "..") && no_slash x.

(** an absolute, normalized path other than [/], which is what
    [path.join(os.homedir(), ".openclaw", "skills")] yields *)
Definition normal_abs (root : string) : Prop :=
  exists segs, segs <> [] /\ Forall (fun x => good_seg x = true) segs
               /\ root = "/" +:+ NPath.join_segs segs.



(** the target directory does not hold an Install Record without the
    content file *)
Definition record_implies_content (dir : string) (fs : fsys) : Prop :=
  is_file fs (NPath.join [dir; ".vibeclaw.json"]) = true ->
  is_file fs (NPath.join [dir; "SKILL.md"]) = true.

Definition is_write (o : op) : bool :=
  match o with OWrite _ _ => true | _ => false end.

Definition is_fetch (o : op) : bool :=
  match o with OFetch _ => true | _ => false end.

(** the parent directory of every existing path exists, as on a real
    filesystem *)
Definition parents_exist (fs : fsys) : Prop :=
  set_Forall (fun p => parent p = "" \/ is_dir fs (parent p) = true) (dom (files fs) ∪ dirs fs).

(** the three success and failure records [install] builds *)
Definition already_result (raw dir : string) : InstallResult :=
  {| success := true; skillName := raw; installPath := Some dir; sourceUrl := None;
     error := None; alreadyInstalled := Some true |}.
Definition notfound_result (owner repo raw : string) : InstallResult :=
  {| success := false; skillName := raw; installPath := None; sourceUrl := None;
     error := Some (notfound_msg owner repo raw); alreadyInstalled := None |}.
Definition fresh_result (raw dir url : string) : InstallResult :=
  {| success := true; skillName := raw; installPath := Some dir; sourceUrl := Some url;
     error := None; alreadyInstalled := None |}.

(** concrete worlds *)
Definition root0 : string := "/home/u/.openclaw/skills".
Definition fs_home : fsys :=
  {| files := ∅; dirs := list_to_set (prefixes root0); noread := ∅ |}.
(** a network where only the fourth candidate, [master/SKILL.md], is a descriptor *)
Definition net_fourth : network := fun url =>
  if String.eqb url "https://raw.githubusercontent.com/o/r/master/SKILL.md"
  then Some (true, "---" +:+ Str.nl +:+ "name: x" +:+ Str.nl +:+ "---" +:+ Str.nl +:+ "body")
  else Some (false, "404: Not Found").
(** a resource whose deep scan failed, with a low risk score *)
Definition skill_unsafe : VibeResource :=
  {| res_name := "s"; github_owner := Some "o"; github_repo := Some "r"; stars := 0;
     security_score := Some 3; security_flags := None;
     cisco_scan_result := Some {| is_safe := false; max_severity := "high";
                                  findings_count := 2 |} |}.
(** a network where every candidate answers 404 *)
Definition net_none : network := fun _ => Some (false, "404: Not Found").
(** [x] holds an Install Record but no [SKILL.md] *)
Definition fs_rec : fsys :=
  {| files := {[ root0 +:+ "/x/.vibeclaw.json" := "{}" ]};
     dirs := list_to_set (prefixes (root0 +:+ "/x")); noread := ∅ |}.
(** [x] installed: content file and Install Record *)
Definition fs_inst : fsys :=
  {| files := {[ root0 +:+ "/x/SKILL.md" := "---"; root0 +:+ "/x/.vibeclaw.json" := "{}" ]};
     dirs := list_to_set (prefixes (root0 +:+ "/x")); noread := ∅ |}.
(** [x] installed with an Install Record that cannot be read *)
Definition fs_inst_noread : fsys :=
  {| files := files fs_inst; dirs := dirs fs_inst;
     noread := {[ root0 +:+ "/x/.vibeclaw.json" ]} |}.
Definition world_at (fs : fsys) (net : network) : world :=
  {| w_fs0 := fs; w_log := []; w_net := net; w_now := "2026-01-01T00:00:00.000Z" |}.

(* ------------------------------------------------------------------ *)
(** ** The Vibe Index client's query parameters *)

(** [url.searchParams.set(key, value)]: the first pair named [key] gets the
    value and the later ones are removed; without one the pair is appended *)
Fixpoint sp_set (k v : string) (ps : list (string * string)) : list (string * string) :=
  match ps with
  | [] => [(k, v)]
  | (k', v') :: rest =>
      if String.eqb k' k then (k, v) :: List.filter (fun p => negb (String.eqb p.1 k)) rest
      else (k', v') :: sp_set k v rest
  end.

(** the loop of [VibeIndexClient.fetch] over [Object.entries(params)],
    starting from the parameters [init] of [`${baseUrl}${endpoint}`] *)
Definition fetch_params (init params : list (string * string)) : list (string * string) :=
  fold_left (fun ps kv => if String.eqb kv.2 "" then ps else sp_set kv.1 kv.2 ps) params init.

(** [o ?? d] *)
Definition nullish {A} (o : option A) (d : A) : A :=
  match o with Some x => x | None => d end.

(** the [params] of [search(query, opts)], [getInstallInfo(name, type)] and
    [trending(opts)]; a number is integral, rendered by [String] *)
Definition search_params (query : string) (type : option string) (limit offset : option Z)
    : list (string * string) :=
  [("q", query); ("type", nullish type ""); ("limit", Str.of_Z (nullish limit 5));
   ("offset", Str.of_Z (nullish offset 0))].

Definition install_info_params (name : string) (type : option string) : list (string * string) :=
  [("name", name); ("type", nullish type "")].

Definition trending_params (period type : option string) (limit : option Z)
    : list (string * string) :=
  [("period", nullish period "week"); ("type", nullish type ""); ("limit", Str.of_Z (nullish limit 5))].

(** ** The trending tool *)

(** an item of [VibeTrendingResult.data]; [ti_res] holds the other fields *)
Record TrendItem := { ti_res : VibeResource; star_growth : option Z }.

(** [args.period === p] *)
Definition opt_is (o : option string) (p : string) : bool :=
  match o with Some x => String.eqb x p | None => false end.

Section Trending.
(** [formatResource(r, index)] *)
Variable formatResource : TrendItem -> Z -> string.

(** the body of the loop over [result.data], with [i] *)
Definition trending_line (acc : string * Z) (r : TrendItem) : string * Z :=
  let growth := match star_growth r with
                | Some g => if g =? 0 then "" else " (+" +:+ Str.of_Z g +:+ " ⭐)"
                | None => "" end in
  (acc.1 +:+ formatResource r (acc.2 + 1)
     +:+ (if String.eqb growth "" then "" else "   Growth: " +:+ growth +:+ Str.nl)
     +:+ Str.nl,
   acc.2 + 1).

(** [vibeclaw_trending]'s [execute]; [fetch endpoint ps] is the Vibe Index's
    answer to the request with the search parameters [ps]: [Exc] when the
    request rejects (also on a status that is not ok), otherwise
    [(success, data)]; [base] are the parameters of the client's base URL *)
Definition trending_execute (fetch : string -> list (string * string) -> outcome (bool * list TrendItem))
    (base : list (string * string)) (period type : option string) (limit : option Z) : string :=
  match fetch "/trending"
          (fetch_params base (trending_params (Some (nullish period "week")) type
                                              (Some (nullish limit 5)))) with
  | Exc e => "Error fetching trending: " +:+ e
  | Ok (success, data) =>
      if negb success || (length data =? 0)%nat then "No trending data available right now."
      else
        let periodLabel := if opt_is period "day" then "today"
                           else if opt_is period "month" then "this month" else "this week" in
        let output := "Trending " +:+ nullish type "resources" +:+ " " +:+ periodLabel
                      +:+ " on Vibe Index:" +:+ Str.nl +:+ Str.nl in
        (fold_left trending_line data (output, 0)).1 +:+ "Use vibeclaw_install to install any of these."
  end.
End Trending.

(** a resource at [o/r] that passes the gate *)
Definition tool_hit : ToolResource :=
  {| tr_res := {| res_name := "x"; github_owner := Some "o"; github_repo := Some "r";
                  stars := 7; security_score := Some 0; security_flags := None;
                  cisco_scan_result := None |};
     github_url := Some "https://github.com/o/r"; description := None |}.

(** a trending item with a star growth *)
Definition trend0 : TrendItem := {| ti_res := tr_res tool_hit; star_growth := Some 3 |}.

(** the answer of [manage uninstall n] when a skill was removed *)
Definition uninstalled_msg (n : string) : string :=
  "✓ Uninstalled " +:+ Str.dq +:+ n +:+ Str.dq +:+ ". It will be removed on next session.".

(** * Proofs *)

(** ** Strings *)

(* stdpp makes [String.append] opaque to [simpl]; the proofs below reduce it *)
Local Arguments String.append : simpl nomatch.

Lemma str_app_assoc (a b c : string) : (a +:+ b) +:+ c = a +:+ (b +:+ c).
Proof. induction a as [|x a IH]; simpl; [reflexivity|now rewrite IH]. Qed.

Lemma str_app_nil (a : string) : a +:+ "" = a.
Proof. induction a as [|x a IH]; simpl; [reflexivity|now rewrite IH]. Qed.

Lemma startsWith_app (p s : string) : Str.startsWith p (p +:+ s) = true.
Proof. induction p as [|c p IH]; simpl; [reflexivity|now rewrite Ascii.eqb_refl, IH]. Qed.

Lemma startsWith_inv (p t : string) :
  Str.startsWith p t = true -> exists r, t = p +:+ r.
Proof.
  revert t; induction p as [|c p IH]; intros [|d t] H; simpl in *.
  - now exists "".
  - now exists (String d t).
  - discriminate.
  - apply andb_true_iff in H as [Hc H]. apply Ascii.eqb_eq in Hc as ->.
    destruct (IH t H) as [r ->]. now exists r.
Qed.


Lemma drop_split (m : nat) (s : string) : exists pre, s = pre +:+ Str.drop m s.
Proof.
  revert s; induction m as [|m IH]; intros s; simpl.
  - now exists "".
  - destruct s as [|c s].
    + now exists "".
    + destruct (IH s) as [pre Hp]. exists (String c pre). simpl. now rewrite <- Hp.
Qed.

Lemma drop_drop (m k : nat) (s : string) : Str.drop m (Str.drop k s) = Str.drop (k + m) s.
Proof.
  revert s; induction k as [|k IH]; intros s; simpl; [reflexivity|].
  destruct s; simpl; [destruct m; reflexivity|apply IH].
Qed.

Lemma drop_empty (m : nat) : Str.drop m "" = "".
Proof. destruct m; reflexivity. Qed.

(** [find_from] returns the first occurrence, or [-1] when there is none *)
Lemma find_from_cases (p t : string) (i : nat) :
  (Str.find_from p t i = -1 /\ forall m, ~ occurs_at p t m)
  \/ (exists m, Str.find_from p t i = Z.of_nat (i + m) /\ occurs_at p t m
               /\ forall m', (m' < m)%nat -> ~ occurs_at p t m').
Proof.
  unfold occurs_at. revert i; induction t as [|c t IH]; intros i; simpl.
  - destruct (Str.startsWith p "") eqn:E.
    + right. exists 0%nat. rewrite Nat.add_0_r. repeat split; auto. intros; lia.
    + left. split; [reflexivity|]. intros m. now rewrite drop_empty, E.
  - destruct (Str.startsWith p (String c t)) eqn:E.
    + right. exists 0%nat. rewrite Nat.add_0_r. repeat split; auto. intros; lia.
    + destruct (IH (S i)) as [[H1 H2]|[m [H1 [H2 H3]]]].
      * left. split; [exact H1|]. intros [|m]; simpl; [now rewrite E|apply H2].
      * right. exists (S m). rewrite H1. split; [f_equal; lia|]. split; [exact H2|].
        intros [|m'] Hm'; simpl; [now rewrite E|apply H3; lia].
Qed.


Lemma includes_occurs (p s : string) :
  Str.includes p s = true <-> exists m, occurs_at p s m.
Proof.
  unfold Str.includes, Str.indexOf. rewrite Nat.min_0_l. simpl.
  destruct (find_from_cases p s 0) as [[H1 H2]|[m [H1 [H2 _]]]]; rewrite H1.
  - split; [discriminate|]. intros [m Hm]. exfalso. now apply (H2 m).
  - split; [intros _; now exists m|intros _; apply Z.leb_le; lia].
Qed.


(** ** The security gate *)

Lemma checkSecurity_blocked_prefix (skill : VibeResource) (m : string) :
  checkSecurity skill = Some m -> Str.startsWith "⛔ BLOCKED: " m = true.
Proof.
  unfold checkSecurity, score_gate. intros H.
  destruct (cisco_scan_result skill) as [c|]; [destruct (is_safe c)|];
    try (destruct (security_score skill) as [sc|]; [destruct (25 <=? sc)|]);
    cbn [negb] in H; try discriminate; injection H as <-;
    unfold cisco_block_msg, score_block_msg; apply startsWith_app.
Qed.

(** C1: an unsafe deep scan blocks whatever the score; otherwise the gate
    blocks exactly when a score of at least 25 is present; a block is a
    message, an allow is [None]; the gate is a pure function. *)
Theorem checkSecurity_policy (skill : VibeResource) :
  (forall c, cisco_scan_result skill = Some c -> is_safe c = false ->
     checkSecurity skill = Some (cisco_block_msg skill c))
  /\ ((forall c, cisco_scan_result skill = Some c -> is_safe c = true) ->
      (checkSecurity skill <> None <->
         exists sc, security_score skill = Some sc /\ 25 <= sc))
  /\ (forall m, checkSecurity skill = Some m -> Str.startsWith "⛔ BLOCKED: " m = true).
Proof.
  split; [|split].
  - intros c Hc Hs. unfold checkSecurity. now rewrite Hc, Hs.
  - intros Hsafe. unfold checkSecurity.
    assert (Hg : match cisco_scan_result skill with
                 | Some c => if negb (is_safe c) then Some (cisco_block_msg skill c)
                             else score_gate skill
                 | None => score_gate skill end = score_gate skill).
    { destruct (cisco_scan_result skill) as [c|] eqn:E; [|reflexivity].
      now rewrite (Hsafe c eq_refl). }
    rewrite Hg. unfold score_gate.
    destruct (security_score skill) as [sc|].
    + destruct (Z.leb_spec 25 sc) as [Hle|Hlt].
      * split; [intros _; now exists sc|discriminate].
      * split; [contradiction|]. intros [sc' [Heq Hle]]. injection Heq as <-. lia.
    + split; [contradiction|]. intros [sc' [Heq _]]. discriminate.
  - apply checkSecurity_blocked_prefix.
Qed.

(** ** The source prober *)

Lemma emit_emits (o : op) (w : world) : emit o w = emits [o] w.
Proof. reflexivity. Qed.

Lemma emits_emits (a b : list op) (w : world) : emits b (emits a w) = emits (a ++ b) w.
Proof. unfold emits; simpl. now rewrite app_assoc. Qed.

Lemma emits_nil (w : world) : emits [] w = w.
Proof. destruct w; unfold emits; simpl. now rewrite app_nil_r. Qed.

Lemma try_url_eq (url : string) (w : world) :
  try_url url w =
  (Ok (option_map (fun c => (c, url)) (hit (w_net w) url)), emit (OFetch url) w).
Proof.
  unfold try_url, try_catch, fetch, hit, mbind, M_bind, mret, M_ret.
  destruct (w_net w url) as [[[|] c]|]; simpl; try reflexivity.
  destruct (looksLikeSkillMd c); reflexivity.
Qed.

Lemma probe_cons (url : string) (rest : list string) (w : world) :
  probe (url :: rest) w =
  match hit (w_net w) url with
  | Some c => (Ok (Some (c, url)), emit (OFetch url) w)
  | None => probe rest (emit (OFetch url) w)
  end.
Proof.
  simpl. unfold mbind at 1, M_bind at 1. rewrite try_url_eq.
  destruct (hit (w_net w) url); reflexivity.
Qed.

Lemma probe_first (urls : list string) (w : world) (k : nat) (url body : string) :
  nth_error urls k = Some url ->
  hit (w_net w) url = Some body ->
  (forall j u, (j < k)%nat -> nth_error urls j = Some u -> hit (w_net w) u = None) ->
  probe urls w = (Ok (Some (body, url)), emits (map OFetch (take (S k) urls)) w).
Proof.
  revert w k; induction urls as [|u rest IH]; intros w k Hk Hhit Hbefore.
  - destruct k; discriminate.
  - rewrite probe_cons. destruct k as [|k].
    + injection Hk as ->. now rewrite Hhit.
    + rewrite (Hbefore 0%nat u ltac:(lia) eq_refl).
      rewrite (IH (emit (OFetch u) w) k Hk Hhit).
      * now rewrite emit_emits, emits_emits.
      * intros j v Hj Hv. apply (Hbefore (S j) v ltac:(lia) Hv).
Qed.

Lemma probe_none (urls : list string) (w : world) :
  (forall u, In u urls -> hit (w_net w) u = None) ->
  probe urls w = (Ok None, emits (map OFetch urls) w).
Proof.
  revert w; induction urls as [|u rest IH]; intros w Hall.
  - simpl. now rewrite emits_nil.
  - rewrite probe_cons, (Hall u (or_introl eq_refl)).
    rewrite IH.
    + now rewrite emit_emits, emits_emits.
    + intros v Hv. apply (Hall v (or_intror Hv)).
Qed.

Lemma probe_shape (urls : list string) (w : world) :
  exists r fetched, probe urls w = (Ok r, emits (map OFetch fetched) w).
Proof.
  revert w; induction urls as [|u rest IH]; intros w.
  - exists None, []. simpl. now rewrite emits_nil.
  - rewrite probe_cons. destruct (hit (w_net w) u) as [c|].
    + exists (Some (c, u)), [u]. reflexivity.
    + destruct (IH (emit (OFetch u) w)) as [r [fetched Heq]].
      exists r, (u :: fetched). rewrite Heq, emit_emits, emits_emits. reflexivity.
Qed.

(** C3: the six candidates, in their fixed order, are fetched one by one; the
    first candidate that is ok and validates is returned with its URL, and no
    later candidate is requested. *)
Theorem downloadSkillMd_first_hit (owner repo name : string) (w : world) (k : nat)
    (url body : string) :
  nth_error (getSkillMdUrls owner repo name) k = Some url ->
  hit (w_net w) url = Some body ->
  (forall j u, (j < k)%nat -> nth_error (getSkillMdUrls owner repo name) j = Some u ->
     hit (w_net w) u = None) ->
  getSkillMdUrls owner repo name =
    [ "https://raw.githubusercontent.com/" +:+ owner +:+ "/" +:+ repo
        +:+ "/main/skills/" +:+ name +:+ "/SKILL.md";
      "https://raw.githubusercontent.com/" +:+ owner +:+ "/" +:+ repo
        +:+ "/master/skills/" +:+ name +:+ "/SKILL.md";
      "https://raw.githubusercontent.com/" +:+ owner +:+ "/" +:+ repo +:+ "/main/SKILL.md";
      "https://raw.githubusercontent.com/" +:+ owner +:+ "/" +:+ repo +:+ "/master/SKILL.md";
      "https://raw.githubusercontent.com/" +:+ owner +:+ "/" +:+ repo
        +:+ "/main/src/skills/" +:+ name +:+ "/SKILL.md";
      "https://raw.githubusercontent.com/" +:+ owner +:+ "/" +:+ repo
        +:+ "/master/src/skills/" +:+ name +:+ "/SKILL.md" ]
  /\ downloadSkillMd owner repo name w =
     (Ok (Some (body, url)), emits (map OFetch (take (S k) (getSkillMdUrls owner repo name))) w).
Proof.
  intros Hk Hhit Hbefore. split.
  { unfold getSkillMdUrls. now rewrite !str_app_assoc. }
  unfold downloadSkillMd. now apply (probe_first _ w k).
Qed.

(** Witness of C3: only the fourth candidate is a descriptor; the prober makes
    four requests and returns the fourth. *)
Lemma downloadSkillMd_first_hit_witness :
  downloadSkillMd "o" "r" "x" (world_at fs_home net_fourth) =
  (Ok (Some ("---" +:+ Str.nl +:+ "name: x" +:+ Str.nl +:+ "---" +:+ Str.nl +:+ "body",
             "https://raw.githubusercontent.com/o/r/master/SKILL.md")),
   emits (map OFetch (take 4 (getSkillMdUrls "o" "r" "x"))) (world_at fs_home net_fourth)).
Proof.
  apply (proj2 (downloadSkillMd_first_hit "o" "r" "x" (world_at fs_home net_fourth) 3
                  "https://raw.githubusercontent.com/o/r/master/SKILL.md" _ eq_refl eq_refl
                  ltac:(intros j u Hj Hu; destruct j as [|[|[|j]]]; try lia;
                        injection Hu as <-; reflexivity))).
Defined.

(** ** The content validation *)

Lemma occurs_at_0 (p s : string) : occurs_at p s 0 <-> Str.startsWith p s = true.
Proof. reflexivity. Qed.

Lemma indexOf_from3 (content : string) :
  Str.startsWith "---" content = true ->
  Str.indexOf "---" content 3 = Str.find_from "---" (Str.drop 3 content) 3.
Proof.
  intros H. apply startsWith_inv in H as [r ->].
  unfold Str.indexOf. reflexivity.
Qed.

Lemma occurs_at_drop3 (p content : string) (m : nat) :
  occurs_at p (Str.drop 3 content) m <-> occurs_at p content (3 + m).
Proof. unfold occurs_at. now rewrite drop_drop. Qed.

(** C4 (as amended): the validation accepts exactly the bodies that start
    with [---], whose first [---] searched from index 3 lies beyond index 3,
    and that contain [name:] anywhere; a rejected ok body sends the prober
    to the next candidate. *)
Theorem looksLikeSkillMd_iff (content : string) :
  (looksLikeSkillMd content = true <->
     occurs_at "---" content 0 /\ ~ occurs_at "---" content 3
     /\ (exists i, (3 < i)%nat /\ occurs_at "---" content i)
     /\ (exists j, occurs_at "name:" content j))
  /\ (forall w url rest, w_net w url = Some (true, content) ->
        looksLikeSkillMd content = false ->
        probe (url :: rest) w = probe rest (emit (OFetch url) w)).
Proof.
  split.
  - unfold looksLikeSkillMd. rewrite occurs_at_0, <- includes_occurs.
    split.
    + intros H. apply andb_true_iff in H as [H Hname].
      apply andb_true_iff in H as [Hstart Hidx].
      rewrite (indexOf_from3 _ Hstart) in Hidx.
      destruct (find_from_cases "---" (Str.drop 3 content) 3)
        as [[H1 _]|[m [H1 [H2 H3]]]]; rewrite H1 in Hidx.
      * discriminate.
      * apply Z.ltb_lt in Hidx.
        repeat split; auto.
        -- intros H0. apply (H3 0%nat); [lia|]. now apply occurs_at_drop3.
        -- exists (3 + m)%nat. split; [lia|]. now apply occurs_at_drop3.
    + intros [Hstart [Hnot3 [[i [Hi Hocc]] Hname]]].
      rewrite Hstart, Hname, (indexOf_from3 _ Hstart), andb_true_r. cbn [andb].
      destruct (find_from_cases "---" (Str.drop 3 content) 3)
        as [[_ H2]|[m [H1 [H2 _]]]].
      * exfalso. apply (H2 (i - 3)%nat). apply occurs_at_drop3.
        now replace (3 + (i - 3))%nat with i by lia.
      * rewrite H1. apply Z.ltb_lt. destruct m as [|m].
        -- exfalso. apply Hnot3. now apply occurs_at_drop3 in H2.
        -- lia.
  - intros w url rest Hnet Hbad. rewrite probe_cons.
    unfold hit. now rewrite Hnet, Hbad.
Qed.

(** C4 as stated fails: a body whose [name:] line follows the closing
    delimiter validates. *)
Lemma looksLikeSkillMd_name_outside :
  ~ (forall content, looksLikeSkillMd content = true <->
       (Str.startsWith "---" content = true /\ 3 < Str.indexOf "---" content 3
        /\ name_between_delims content = true)).
Proof.
  intros H.
  specialize (H ("---" +:+ Str.nl +:+ "---" +:+ Str.nl +:+ "name: x")).
  vm_compute in H. destruct H as [H _].
  destruct (H eq_refl) as [_ [_ X]]. discriminate.
Qed.

(** ** Paths *)

Lemma split_no_slash (x : string) : no_slash x = true -> NPath.split x = [x].
Proof.
  induction x as [|c x IH]; intros H; [reflexivity|].
  simpl in H. apply andb_true_iff in H as [Hc H].
  apply negb_true_iff in Hc. simpl. rewrite Hc, (IH H). reflexivity.
Qed.

Lemma split_app_slash (x r : string) :
  no_slash x = true -> NPath.split (x +:+ "/" +:+ r) = x :: NPath.split r.
Proof.
  induction x as [|c x IH]; intros H; [reflexivity|].
  simpl in H. apply andb_true_iff in H as [Hc H].
  apply negb_true_iff in Hc.
  change (String c x +:+ ?y) with (String c (x +:+ y)). cbn [NPath.split].
  rewrite Hc, (IH H). reflexivity.
Qed.

Lemma split_slash_cons (r : string) : NPath.split ("/" +:+ r) = "" :: NPath.split r.
Proof. reflexivity. Qed.

Lemma join_segs_cons (x : string) (l : list string) :
  l <> [] -> NPath.join_segs (x :: l) = x +:+ "/" +:+ NPath.join_segs l.
Proof. destruct l; [contradiction|reflexivity]. Qed.

Lemma split_join_app (segs : list string) (r : string) :
  segs <> [] -> Forall (fun x => no_slash x = true) segs ->
  NPath.split (NPath.join_segs segs +:+ "/" +:+ r) = segs ++ NPath.split r.
Proof.
  induction segs as [|x l IH]; intros Hne Hall; [contradiction|].
  inversion Hall as [|? ? Hx Hl]; subst.
  destruct l as [|y l].
  - change (NPath.join_segs [x]) with x. now apply split_app_slash.
  - rewrite join_segs_cons by discriminate. rewrite !str_app_assoc, split_app_slash by exact Hx.
    rewrite <- app_comm_cons. f_equal. apply IH; [discriminate|exact Hl].
Qed.

Lemma split_join (segs : list string) :
  segs <> [] -> Forall (fun x => no_slash x = true) segs ->
  NPath.split (NPath.join_segs segs) = segs.
Proof.
  induction segs as [|x l IH]; intros Hne Hall; [contradiction|].
  inversion Hall as [|? ? Hx Hl]; subst.
  destruct l as [|y l].
  - now apply split_no_slash.
  - rewrite join_segs_cons by discriminate. rewrite split_app_slash by exact Hx.
    f_equal. apply IH; [discriminate|exact Hl].
Qed.

Lemma join_segs_snoc (segs : list string) (s : string) :
  segs <> [] -> NPath.join_segs (segs ++ [s]) = NPath.join_segs segs +:+ "/" +:+ s.
Proof.
  induction segs as [|x l IH]; intros Hne; [contradiction|].
  destruct l as [|y l]; [reflexivity|].
  change ((x :: y :: l) ++ [s]) with (x :: ((y :: l) ++ [s])).
  rewrite join_segs_cons by (simpl; discriminate).
  rewrite IH by discriminate. rewrite (join_segs_cons x (y :: l)) by discriminate.
  now rewrite str_app_assoc.
Qed.

Lemma good_seg_no_slash (x : string) : good_seg x = true -> no_slash x = true.
Proof. unfold good_seg. intros H. now apply andb_true_iff in H as [_ H]. Qed.

Lemma good_seg_nonempty (x : string) : good_seg x = true -> String.eqb x "" = false.
Proof.
  unfold good_seg. intros H. apply andb_true_iff in H as [H _].
  apply andb_true_iff in H as [H _]. apply andb_true_iff in H as [H _].
  now apply negb_true_iff in H.
Qed.

Lemma norm_step_good (b : bool) (stk : list string) (x : string) :
  good_seg x = true -> NPath.norm_step b stk x = x :: stk.
Proof.
  unfold good_seg, NPath.norm_step. intros H.
  apply andb_true_iff in H as [H _]. apply andb_true_iff in H as [H H3].
  apply andb_true_iff in H as [H1 H2].
  apply negb_true_iff in H1, H2, H3. now rewrite H1, H2, H3.
Qed.

Lemma foldl_norm_good (b : bool) (stk segs : list string) :
  Forall (fun x => good_seg x = true) segs ->
  foldl (NPath.norm_step b) stk segs = rev segs ++ stk.
Proof.
  revert stk; induction segs as [|x l IH]; intros stk Hall; [reflexivity|].
  inversion Hall as [|? ? Hx Hl]; subst. simpl.
  rewrite norm_step_good by exact Hx. rewrite IH by exact Hl.
  now rewrite <- app_assoc.
Qed.

Lemma Forall_good_no_slash (segs : list string) :
  Forall (fun x => good_seg x = true) segs -> Forall (fun x => no_slash x = true) segs.
Proof. intros H. eapply Forall_impl; [exact H|]. intros x. apply good_seg_no_slash. Qed.

Lemma no_slash_not_abs (s : string) :
  no_slash s = true -> NPath.isAbsolute s = false.
Proof.
  destruct s as [|c s]; [reflexivity|]. simpl. intros H.
  apply andb_true_iff in H as [Hc _]. apply negb_true_iff in Hc.
  unfold NPath.isAbsolute.
  change (Str.startsWith "/" (String c s)) with (Ascii.eqb NPath.slash c && Str.startsWith "" s).
  now rewrite Ascii.eqb_sym, Hc.
Qed.

(** the segments of [root/s] for a normalized absolute root *)
Lemma norm_root_child (segs : list string) (s : string) :
  segs <> [] -> Forall (fun x => good_seg x = true) segs -> good_seg s = true ->
  foldl (NPath.norm_step false) []
    (NPath.split (("/" +:+ NPath.join_segs segs) +:+ "/" +:+ s +:+ "/"))
  = rev (segs ++ [s]).
Proof.
  intros Hne Hall Hs.
  rewrite str_app_assoc, split_slash_cons.
  rewrite split_join_app by (auto using Forall_good_no_slash).
  change (s +:+ "/") with (s +:+ "/" +:+ "").
  rewrite (split_app_slash s "") by (now apply good_seg_no_slash).
  simpl foldl. rewrite foldl_app. simpl.
  rewrite foldl_norm_good by exact Hall. rewrite app_nil_r.
  rewrite (norm_step_good false (rev segs) s Hs).
  now rewrite rev_app_distr.
Qed.

Lemma resolve_child (cwd root s : string) :
  normal_abs root -> good_seg s = true ->
  NPath.resolve cwd [root; s] = root +:+ "/" +:+ s.
Proof.
  intros [segs [Hne [Hall Hroot]]] Hs.
  assert (Habs : NPath.isAbsolute root = true) by (subst; apply startsWith_app).
  assert (Hre : String.eqb root "" = false) by (subst; reflexivity).
  unfold NPath.resolve.
  change (rev [root; s] ++ [cwd]) with [s; root; cwd].
  cbn [NPath.resolve_loop].
  rewrite (good_seg_nonempty s Hs), (no_slash_not_abs s (good_seg_no_slash s Hs)).
  cbv beta iota. rewrite Hre, Habs. cbv beta iota.
  unfold NPath.normalizeString. rewrite str_app_nil. cbn [negb].
  subst root. rewrite norm_root_child by assumption. rewrite rev_involutive.
  rewrite join_segs_snoc by exact Hne. now rewrite !str_app_assoc.
Qed.




Lemma strip_no_slash (s : string) : no_slash (strip s) = true.
Proof.
  induction s as [|c s IH]; [reflexivity|]. cbn [strip].
  destruct (allowed_char c) eqn:Ea; [|exact IH].
  cbn [no_slash]. rewrite IH, andb_true_r.
  destruct (Ascii.eqb_spec c NPath.slash) as [->|Hne]; [discriminate|reflexivity].
Qed.

Lemma clean_good_seg (s : string) :
  (String.eqb s "" || Str.includes ".." s || Str.startsWith "." s) = false ->
  no_slash s = true -> good_seg s = true.
Proof.
  intros H Hns. apply orb_false_iff in H as [H H3]. apply orb_false_iff in H as [H1 _].
  unfold good_seg. rewrite H1, Hns. cbn [negb andb].
  destruct (String.eqb_spec s ".") as [->|_]; [discriminate|].
  destruct (String.eqb_spec s "..") as [->|_]; [discriminate|reflexivity].
Qed.

(** the sanitizer under a normalized absolute root: the last test never fires *)
Lemma sanitize_normal (root cwd raw : string) :
  normal_abs root ->
  sanitizeSkillName root cwd raw =
  if String.eqb (strip raw) "" || Str.includes ".." (strip raw) || Str.startsWith "." (strip raw)
  then None else Some (strip raw).
Proof.
  intros Hroot. unfold sanitizeSkillName.
  destruct (String.eqb (strip raw) "" || Str.includes ".." (strip raw)
            || Str.startsWith "." (strip raw)) eqn:E; [reflexivity|].
  rewrite resolve_child by (auto using clean_good_seg, strip_no_slash).
  rewrite <- str_app_assoc, startsWith_app. reflexivity.
Qed.


(** the normalized absolute root of the default configuration *)
Lemma normal_abs_root0 : normal_abs root0.
Proof.
  exists ["home"; "u"; ".openclaw"; "skills"]. split; [discriminate|].
  split; [repeat constructor|reflexivity].
Qed.



(** ** The installer *)

Lemma cur_emits (ops : list op) (w : world) : cur (emits ops w) = replay (cur w) ops.
Proof. unfold cur, replay, emits; simpl. now rewrite foldl_app. Qed.

Lemma cur_emit (o : op) (w : world) : cur (emit o w) = step (cur w) o.
Proof. unfold cur, replay, emit; simpl. now rewrite foldl_app. Qed.

Lemma replay_fetches (fs : fsys) (urls : list string) : replay fs (map OFetch urls) = fs.
Proof. induction urls as [|u l IH]; [reflexivity|exact IH]. Qed.

Lemma w_net_emits (ops : list op) (w : world) : w_net (emits ops w) = w_net w.
Proof. reflexivity. Qed.

(** a case split on every [match] the hypothesis [H] is stuck on *)
Ltac split_matches H :=
  repeat (match type of H with
          | context [match ?x with _ => _ end] =>
              let E := fresh "E" in destruct x eqn:E
          end; try discriminate H).

(** [installSkillFromGitHub] on a name the sanitizer accepts, step by step *)
Lemma install_unfold (root cwd owner repo raw s : string) (force : bool) (w : world) :
  sanitizeSkillName root cwd raw = Some s ->
  installSkillFromGitHub root cwd owner repo raw force w =
  let dir := NPath.join [root; s] in
  let file := NPath.join [dir; "SKILL.md"] in
  let meta := NPath.join [dir; ".vibeclaw.json"] in
  let w1 := emit (OAccess file) w in
  if exists_path (cur w) file && negb force then (Ok (already_result raw dir), w1)
  else
    match downloadSkillMd owner repo raw w1 with
    | (Ok None, w2) => (Ok (notfound_result owner repo raw), w2)
    | (Ok (Some (c, u)), w2) =>
        let w3 := emit (OMkdir dir) w2 in
        if can_mkdir (cur w2) dir then
          let w4 := emit (OWrite file c) w3 in
          if can_write (cur w3) file then
            let w5 := emit (OWrite meta (meta_json (w_now w4) owner repo u raw)) w4 in
            if can_write (cur w4) meta then (Ok (fresh_result raw dir u), w5)
            else (Exc "ENOENT", w5)
          else (Exc "ENOENT", w4)
        else (Exc "ENOTDIR", w3)
    | (Exc e, w2) => (Exc e, w2)
    end.
Proof.
  intros Es. unfold installSkillFromGitHub. rewrite Es.
  unfold mbind, M_bind, try_catch, mret, M_ret, fs_access, fs_mkdir_p, fs_writeFile,
    guarded, now.
  cbv zeta.
  destruct (exists_path (cur w) (NPath.join [NPath.join [root; s]; "SKILL.md"])), force;
    cbn [andb negb];
    destruct (downloadSkillMd owner repo raw
                (emit (OAccess (NPath.join [NPath.join [root; s]; "SKILL.md"])) w))
      as [[[[c u]|]|e] w2]; try reflexivity;
    destruct (can_mkdir (cur w2) (NPath.join [root; s])); try reflexivity;
    destruct (can_write _ _); try reflexivity;
    destruct (can_write _ _); reflexivity.
Qed.

(** C10: every result of [install] carries the raw name, and an install path
    only as the root joined with the sanitized name. *)
Theorem install_result_names (root cwd owner repo raw : string) (force : bool)
    (w w' : world) (r : InstallResult) :
  installSkillFromGitHub root cwd owner repo raw force w = (Ok r, w') ->
  skillName r = raw
  /\ (forall p, installPath r = Some p ->
       exists s, sanitizeSkillName root cwd raw = Some s /\ p = NPath.join [root; s]).
Proof.
  intros H. destruct (sanitizeSkillName root cwd raw) as [s|] eqn:Es.
  - rewrite (install_unfold root cwd owner repo raw s force w Es) in H. cbv zeta in H.
    split_matches H; injection H as <- _; simpl; (split; [reflexivity|]);
      intros q Hq; try discriminate Hq; injection Hq as <-; now exists s.
  - unfold installSkillFromGitHub in H. rewrite Es in H.
    injection H as <- _. simpl. split; [reflexivity|discriminate].
Qed.

Lemma is_file_write_same (fs : fsys) (p c : string) :
  can_write fs p = true -> is_file (step fs (OWrite p c)) p = true.
Proof. intros H. unfold step, is_file. rewrite H. simpl. now rewrite lookup_insert_eq. Qed.

Lemma is_file_write_keep (fs : fsys) (p q c : string) :
  is_file fs q = true -> is_file (step fs (OWrite p c)) q = true.
Proof.
  intros H. unfold step. destruct (can_write fs p); [|exact H].
  unfold is_file in *; simpl. destruct (decide (p = q)) as [->|Hne].
  - now rewrite lookup_insert_eq.
  - now rewrite lookup_insert_ne by exact Hne.
Qed.

Lemma exists_path_write_keep (fs : fsys) (p q c : string) :
  exists_path fs q = true -> exists_path (step fs (OWrite p c)) q = true.
Proof.
  unfold exists_path. intros H. apply orb_true_iff in H as [H|H].
  - now rewrite (is_file_write_keep fs p q c H).
  - apply orb_true_iff. right. unfold step. destruct (can_write fs p); exact H.
Qed.

Lemma files_step_nonwrite (fs : fsys) (o : op) :
  is_write o = false -> (match o with ORm _ => False | _ => True end) ->
  files (step fs o) = files fs.
Proof.
  destruct o; simpl; intros H1 H2; try reflexivity; try discriminate; try contradiction.
  destruct (can_mkdir fs p); reflexivity.
Qed.

Lemma replay_app (fs : fsys) (a b : list op) : replay fs (a ++ b) = replay (replay fs a) b.
Proof. unfold replay. apply foldl_app. Qed.

Lemma replay_access_fetches (fs : fsys) (f : string) (urls : list string) :
  replay fs (OAccess f :: map OFetch urls) = fs.
Proof. apply replay_fetches. Qed.

(** a fresh successful install, operation by operation *)
Lemma install_fresh (root cwd owner repo raw : string) (force : bool) (w w' : world)
    (r : InstallResult) :
  installSkillFromGitHub root cwd owner repo raw force w = (Ok r, w') ->
  success r = true -> alreadyInstalled r = None ->
  exists s c u fetched,
    sanitizeSkillName root cwd raw = Some s
    /\ (exists_path (cur w) (NPath.join [NPath.join [root; s]; "SKILL.md"]) = false
        \/ force = true)
    /\ r = fresh_result raw (NPath.join [root; s]) u
    /\ w' = emits (OAccess (NPath.join [NPath.join [root; s]; "SKILL.md"]) :: map OFetch fetched
                   ++ [OMkdir (NPath.join [root; s]);
                       OWrite (NPath.join [NPath.join [root; s]; "SKILL.md"]) c;
                       OWrite (NPath.join [NPath.join [root; s]; ".vibeclaw.json"])
                         (meta_json (w_now w) owner repo u raw)]) w
    /\ can_mkdir (cur w) (NPath.join [root; s]) = true
    /\ can_write (step (cur w) (OMkdir (NPath.join [root; s])))
                 (NPath.join [NPath.join [root; s]; "SKILL.md"]) = true
    /\ can_write (step (step (cur w) (OMkdir (NPath.join [root; s])))
                       (OWrite (NPath.join [NPath.join [root; s]; "SKILL.md"]) c))
                 (NPath.join [NPath.join [root; s]; ".vibeclaw.json"]) = true.
Proof.
  intros H Hs Ha. destruct (sanitizeSkillName root cwd raw) as [s|] eqn:Es.
  2:{ unfold installSkillFromGitHub in H. rewrite Es in H. injection H as <- _. discriminate. }
  rewrite (install_unfold root cwd owner repo raw s force w Es) in H. cbv zeta in H.
  set (dir := NPath.join [root; s]) in *.
  set (file := NPath.join [dir; "SKILL.md"]) in *.
  set (meta := NPath.join [dir; ".vibeclaw.json"]) in *.
  destruct (exists_path (cur w) file && negb force) eqn:Eearly.
  { injection H as <- _. discriminate. }
  unfold downloadSkillMd in H.
  destruct (probe_shape (getSkillMdUrls owner repo raw) (emit (OAccess file) w))
    as [r1 [fetched Hp]].
  rewrite Hp in H. destruct r1 as [[c u]|].
  2:{ injection H as <- _. discriminate. }
  assert (Ec : cur (emits (map OFetch fetched) (emit (OAccess file) w)) = cur w).
  { rewrite cur_emits, replay_fetches, cur_emit. reflexivity. }
  rewrite !cur_emit, Ec in H.
  destruct (can_mkdir (cur w) dir) eqn:Em; [|discriminate H].
  destruct (can_write (step (cur w) (OMkdir dir)) file) eqn:Ew1; [|discriminate H].
  destruct (can_write (step (step (cur w) (OMkdir dir)) (OWrite file c)) meta) eqn:Ew2;
    [|discriminate H].
  injection H as <- <-.
  exists s, c, u, fetched. repeat split; auto.
  - apply andb_false_iff in Eearly as [E|E]; [now left|right; now apply negb_false_iff].
  - rewrite !emit_emits, !emits_emits. reflexivity.
Qed.

(** ** Joining below a normalized absolute path *)

Lemma str_length_app (a b : string) : String.length (a +:+ b) = (String.length a + String.length b)%nat.
Proof. induction a as [|c a IH]; [reflexivity|]. simpl. now rewrite IH. Qed.

Lemma get_app_r (a x : string) (n : nat) :
  String.get (String.length a + n) (a +:+ x) = String.get n x.
Proof. induction a as [|c a IH]; [reflexivity|]. exact IH. Qed.

Lemma last_no_slash (x : string) :
  x <> "" -> no_slash x = true ->
  exists c, String.get (String.length x - 1) x = Some c /\ Ascii.eqb c NPath.slash = false.
Proof.
  induction x as [|c x IH]; intros Hne H; [contradiction|].
  cbn [no_slash] in H. apply andb_true_iff in H as [Hc H]. apply negb_true_iff in Hc.
  destruct x as [|d x].
  - exists c. split; [reflexivity|exact Hc].
  - destruct (IH ltac:(discriminate) H) as [c' [Hg Hc']]. exists c'. split; [|exact Hc'].
    cbn [String.length] in *.
    replace (S (S (String.length x)) - 1)%nat with (S (S (String.length x) - 1)) by lia.
    exact Hg.
Qed.

Lemma endsWithSlash_app_seg (a x : string) :
  x <> "" -> no_slash x = true -> NPath.endsWithSlash (a +:+ x) = false.
Proof.
  intros Hne H. destruct (last_no_slash x Hne H) as [c [Hg Hc]].
  unfold NPath.endsWithSlash. rewrite str_length_app.
  assert (Hl : String.length x <> 0%nat) by (destruct x; [contradiction|discriminate]).
  replace (String.length a + String.length x - 1)%nat
    with (String.length a + (String.length x - 1))%nat by lia.
  now rewrite get_app_r, Hg.
Qed.

Lemma join_two (a b : string) :
  String.eqb a "" = false -> String.eqb b "" = false ->
  NPath.join [a; b] = NPath.normalize (a +:+ "/" +:+ b).
Proof.
  intros Ha Hb. unfold NPath.join.
  rewrite filter_cons_True by (rewrite Ha; exact I).
  rewrite filter_cons_True by (rewrite Hb; exact I).
  reflexivity.
Qed.

Lemma join_child (segs : list string) (x : string) :
  segs <> [] -> Forall (fun y => good_seg y = true) segs -> good_seg x = true ->
  NPath.join ["/" +:+ NPath.join_segs segs; x] = "/" +:+ NPath.join_segs (segs ++ [x]).
Proof.
  intros Hne Hall Hx.
  rewrite join_two by (reflexivity || now apply good_seg_nonempty).
  assert (Hxne : x <> "") by (intros ->; discriminate).
  unfold NPath.normalize.
  assert (Hnz : String.eqb ("/" +:+ NPath.join_segs segs +:+ "/" +:+ x) "" = false)
    by reflexivity.
  rewrite <- !str_app_assoc in *. rewrite Hnz. cbv zeta.
  assert (Habs : NPath.isAbsolute (("/" +:+ NPath.join_segs segs) +:+ "/" +:+ x) = true)
    by (rewrite !str_app_assoc; apply startsWith_app).
  rewrite <- str_app_assoc in Habs. rewrite Habs.
  rewrite endsWithSlash_app_seg by (auto using good_seg_no_slash).
  unfold NPath.normalizeString. rewrite !str_app_assoc, split_slash_cons.
  rewrite split_join_app by (auto using Forall_good_no_slash).
  rewrite (split_no_slash x) by (now apply good_seg_no_slash).
  cbn [negb]. simpl foldl. rewrite foldl_app.
  change (NPath.norm_step false [] "") with (@nil string).
  rewrite (foldl_norm_good false [] segs Hall), app_nil_r.
  cbn [foldl]. rewrite (norm_step_good false (rev segs) x Hx).
  rewrite <- rev_unit. rewrite rev_involutive.
  rewrite join_segs_snoc by exact Hne.
  assert (Hq : String.eqb (NPath.join_segs segs +:+ "/" +:+ x) "" = false).
  { destruct segs as [|y l]; [contradiction|].
    inversion Hall as [|? ? Hy _]; subst.
    destruct y; [discriminate|]. destruct l; reflexivity. }
  rewrite Hq. reflexivity.
Qed.

(** ** Probe failure *)

(** C6: when no candidate yields a validated hit, the prober reports
    nothing after fetching each of the six candidates once, and [install]
    fails with the not-found record; its only operations are the existence
    test and the fetches, so no directory is created and no file written. *)
Theorem install_notfound_no_write (root cwd owner repo raw s : string) (force : bool)
    (w : world) :
  sanitizeSkillName root cwd raw = Some s ->
  (exists_path (cur w) (NPath.join [NPath.join [root; s]; "SKILL.md"]) = false
   \/ force = true) ->
  (forall u, In u (getSkillMdUrls owner repo raw) -> hit (w_net w) u = None) ->
  downloadSkillMd owner repo raw w =
    (Ok None, emits (map OFetch (getSkillMdUrls owner repo raw)) w)
  /\ installSkillFromGitHub root cwd owner repo raw force w =
    (Ok (notfound_result owner repo raw),
     emits (OAccess (NPath.join [NPath.join [root; s]; "SKILL.md"])
            :: map OFetch (getSkillMdUrls owner repo raw)) w)
  /\ success (notfound_result owner repo raw) = false
  /\ error (notfound_result owner repo raw) = Some (notfound_msg owner repo raw)
  /\ cur (emits (OAccess (NPath.join [NPath.join [root; s]; "SKILL.md"])
               :: map OFetch (getSkillMdUrls owner repo raw)) w) = cur w.
Proof.
  intros Es Hgo Hnone.
  assert (Hd : forall w0, w_net w0 = w_net w ->
            downloadSkillMd owner repo raw w0 =
            (Ok None, emits (map OFetch (getSkillMdUrls owner repo raw)) w0)).
  { intros w0 Hn. unfold downloadSkillMd. apply probe_none. now rewrite Hn. }
  split; [now apply Hd|]. split; [|split; [reflexivity|split; [reflexivity|]]].
  - rewrite (install_unfold root cwd owner repo raw s force w Es). cbv zeta.
    assert (Hearly : (exists_path (cur w) (NPath.join [NPath.join [root; s]; "SKILL.md"])
                      && negb force) = false)
      by (destruct Hgo as [-> | ->]; [reflexivity|apply andb_false_r]).
    rewrite Hearly, (Hd (emit (OAccess (NPath.join [NPath.join [root; s]; "SKILL.md"])) w) eq_refl). rewrite emit_emits, emits_emits. reflexivity.
  - rewrite cur_emits. apply replay_access_fetches.
Qed.

(** Witness of C6: the default root, a network answering 404 everywhere. *)
Lemma install_notfound_no_write_witness :
  installSkillFromGitHub root0 "/" "o" "r" "x" false (world_at fs_home net_none) =
  (Ok (notfound_result "o" "r" "x"),
   emits (OAccess (NPath.join [NPath.join [root0; "x"]; "SKILL.md"])
          :: map OFetch (getSkillMdUrls "o" "r" "x")) (world_at fs_home net_none)).
Proof.
  apply (install_notfound_no_write root0 "/" "o" "r" "x" "x" false (world_at fs_home net_none)).
  - vm_compute. reflexivity.
  - left. vm_compute. reflexivity.
  - intros u _. reflexivity.
Defined.

(** ** The already-installed test *)

(** a successful [install] leaves the content file in place *)
Lemma install_success_skill_md (root cwd owner repo raw : string) (force : bool)
    (w w' : world) (r : InstallResult) :
  installSkillFromGitHub root cwd owner repo raw force w = (Ok r, w') ->
  success r = true ->
  exists s, sanitizeSkillName root cwd raw = Some s
    /\ exists_path (cur w') (NPath.join [NPath.join [root; s]; "SKILL.md"]) = true.
Proof.
  intros H Hs. destruct (alreadyInstalled r) as [b|] eqn:Ea.
  - destruct (sanitizeSkillName root cwd raw) as [s|] eqn:Es.
    2:{ unfold installSkillFromGitHub in H. rewrite Es in H. injection H as <- _.
        discriminate. }
    exists s. split; [reflexivity|].
    rewrite (install_unfold root cwd owner repo raw s force w Es) in H. cbv zeta in H.
    destruct (exists_path (cur w) (NPath.join [NPath.join [root; s]; "SKILL.md"])
              && negb force) eqn:Eearly.
    + injection H as _ <-. rewrite cur_emit. cbn [step].
      now apply andb_true_iff in Eearly as [? _].
    + split_matches H; injection H as <- _; discriminate.
  - destruct (install_fresh root cwd owner repo raw force w w' r H Hs Ea)
      as [s [c [u [fetched [Es [_ [_ [-> [_ [Ew1 _]]]]]]]]]].
    exists s. split; [exact Es|].
    rewrite cur_emits, app_comm_cons, replay_app, replay_access_fetches.
    cbn [replay foldl]. unfold exists_path.
    rewrite (is_file_write_keep _ _ _ _ (is_file_write_same _ _ c Ew1)). reflexivity.
Qed.

(** C5, as the code has it: the test is on the content file [SKILL.md],
    not on the Install Record. When [SKILL.md] exists, [install] without
    [force] returns the already-installed record after one existence test
    and nothing else (no fetch, no write); hence a second [install] without
    [force] right after any successful one returns the already-installed
    record and neither fetches nor writes. When [SKILL.md] is absent,
    whether or not an Install Record exists, [install] without [force]
    never reports [alreadyInstalled = true] and, after the existence test,
    fetches the first candidate URL. *)
Theorem install_already_when_skill_md (root cwd owner repo raw s : string) (w : world) :
  sanitizeSkillName root cwd raw = Some s ->
  (exists_path (cur w) (NPath.join [NPath.join [root; s]; "SKILL.md"]) = true ->
   installSkillFromGitHub root cwd owner repo raw false w =
   (Ok (already_result raw (NPath.join [root; s])),
    emit (OAccess (NPath.join [NPath.join [root; s]; "SKILL.md"])) w))
  /\ (forall force0 w0 r0,
       installSkillFromGitHub root cwd owner repo raw force0 w0 = (Ok r0, w) ->
       success r0 = true ->
       installSkillFromGitHub root cwd owner repo raw false w =
       (Ok (already_result raw (NPath.join [root; s])),
        emit (OAccess (NPath.join [NPath.join [root; s]; "SKILL.md"])) w))
  /\ (exists_path (cur w) (NPath.join [NPath.join [root; s]; "SKILL.md"]) = false ->
      exists o ops,
        installSkillFromGitHub root cwd owner repo raw false w =
        (o, emits ([OAccess (NPath.join [NPath.join [root; s]; "SKILL.md"]);
                    OFetch (hd "" (getSkillMdUrls owner repo raw))] ++ ops) w)
        /\ forall r, o = Ok r -> alreadyInstalled r <> Some true).
Proof.
  intros Es.
  assert (Hal : exists_path (cur w) (NPath.join [NPath.join [root; s]; "SKILL.md"]) = true ->
                installSkillFromGitHub root cwd owner repo raw false w =
                (Ok (already_result raw (NPath.join [root; s])),
                 emit (OAccess (NPath.join [NPath.join [root; s]; "SKILL.md"])) w)).
  { intros Hex. rewrite (install_unfold root cwd owner repo raw s false w Es). cbv zeta.
    now rewrite Hex. }
  split; [exact Hal|]. split.
  { intros force0 w0 r0 H0 Hs0.
    destruct (install_success_skill_md root cwd owner repo raw force0 w0 w r0 H0 Hs0)
      as [s' [Es' Hex]].
    rewrite Es in Es'. injection Es' as <-. now apply Hal. }
  intros Hno. rewrite (install_unfold root cwd owner repo raw s false w Es). cbv zeta.
  rewrite Hno. cbn [andb negb].
  assert (Hd : exists r ops,
    downloadSkillMd owner repo raw (emit (OAccess (NPath.join [NPath.join [root; s]; "SKILL.md"])) w)
    = (Ok r, emits ([OAccess (NPath.join [NPath.join [root; s]; "SKILL.md"]);
                     OFetch (hd "" (getSkillMdUrls owner repo raw))] ++ ops) w)).
  { unfold downloadSkillMd.
    destruct (getSkillMdUrls owner repo raw) as [|u0 rest] eqn:Eu;
      [unfold getSkillMdUrls in Eu; discriminate Eu|].
    cbn [hd]. rewrite probe_cons.
    destruct (hit _ u0) as [c|].
    - exists (Some (c, u0)), []. rewrite !emit_emits, emits_emits. reflexivity.
    - destruct (probe_shape rest
                  (emit (OFetch u0) (emit (OAccess (NPath.join [NPath.join [root; s]; "SKILL.md"])) w)))
        as [r [f Hf]].
      rewrite Hf. exists r, (map OFetch f). rewrite !emit_emits, !emits_emits. reflexivity. }
  destruct Hd as [r [ops Hd]]. rewrite Hd.
  destruct r as [[c u]|].
  2:{ exists (Ok (notfound_result owner repo raw)), ops. split; [reflexivity|].
      intros r E. injection E as <-. discriminate. }
  rewrite !cur_emit.
  destruct (can_mkdir _ _); [|exists (Exc "ENOTDIR"); eexists;
    split; [rewrite emit_emits, emits_emits, <- app_assoc; reflexivity|discriminate]].
  destruct (can_write _ _); [|exists (Exc "ENOENT"); eexists;
    split; [rewrite !emit_emits, !emits_emits, <- !app_assoc; reflexivity|discriminate]].
  destruct (can_write _ _).
  - exists (Ok (fresh_result raw (NPath.join [root; s]) u)); eexists.
    split; [rewrite !emit_emits, !emits_emits, <- !app_assoc; reflexivity|].
    intros r E. injection E as <-. discriminate.
  - exists (Exc "ENOENT"); eexists.
    split; [rewrite !emit_emits, !emits_emits, <- !app_assoc; reflexivity|discriminate].
Qed.

(** Witness of C5: a fresh install of [x] at the default root, then a
    second one; and an install of [x] where only its Install Record exists. *)
Lemma install_already_when_skill_md_witness :
  match installSkillFromGitHub root0 "/" "o" "r" "x" false (world_at fs_home net_fourth) with
  | (Ok r, w1) =>
      success r = true /\
      installSkillFromGitHub root0 "/" "o" "r" "x" false w1 =
      (Ok (already_result "x" (NPath.join [root0; "x"])),
       emit (OAccess (NPath.join [NPath.join [root0; "x"]; "SKILL.md"])) w1)
  | _ => False
  end
  /\ exists o ops,
       installSkillFromGitHub root0 "/" "o" "r" "x" false (world_at fs_rec net_fourth) =
       (o, emits ([OAccess (NPath.join [NPath.join [root0; "x"]; "SKILL.md"]);
                   OFetch (hd "" (getSkillMdUrls "o" "r" "x"))] ++ ops) (world_at fs_rec net_fourth))
       /\ forall r, o = Ok r -> alreadyInstalled r <> Some true.
Proof.
  split.
  2:{ apply (proj2 (proj2 (install_already_when_skill_md root0 "/" "o" "r" "x" "x"
                             (world_at fs_rec net_fourth) ltac:(vm_compute; reflexivity)))).
      vm_compute. reflexivity. }
  destruct (installSkillFromGitHub root0 "/" "o" "r" "x" false (world_at fs_home net_fourth))
    as [[r|e] w1] eqn:E.
  2:{ vm_compute in E. discriminate E. }
  assert (Hs : success r = true).
  { pose proof E as E'. vm_compute in E'. injection E' as <- _. reflexivity. }
  split; [exact Hs|].
  apply (proj1 (proj2 (install_already_when_skill_md root0 "/" "o" "r" "x" "x" w1
                         ltac:(vm_compute; reflexivity)))
           false (world_at fs_home net_fourth) r E Hs).
Defined.

(** Counterexample to C5 as stated: target directory [x] holds an Install
    Record but no [SKILL.md]; [install] without [force] does not report it
    as installed, and fetches and writes. *)
Lemma install_record_without_content_refetches :
  is_file fs_rec (NPath.join [NPath.join [root0; "x"]; ".vibeclaw.json"]) = true /\
  match installSkillFromGitHub root0 "/" "o" "r" "x" false (world_at fs_rec net_fourth) with
  | (Ok r, w') =>
      success r = true /\ alreadyInstalled r = None
      /\ existsb is_fetch (w_log w') = true /\ existsb is_write (w_log w') = true
  | _ => False
  end.
Proof.
  split; [vm_compute; reflexivity|].
  vm_compute. repeat split.
Qed.

(** ** Order of the two writes *)

Lemma is_file_same_files (a b : fsys) (q : string) :
  files a = files b -> is_file a q = is_file b q.
Proof. unfold is_file. now intros ->. Qed.

Lemma replay_keeps_files (fs : fsys) (l : list op) :
  Forall (fun o => match o with OAccess _ | OFetch _ | OMkdir _ | OReaddir _ => True
                               | _ => False end) l ->
  files (replay fs l) = files fs.
Proof.
  revert fs; induction l as [|o l IH]; intros fs Hall; [reflexivity|].
  inversion Hall as [|? ? Ho Hl]; subst. cbn [replay foldl].
  change (foldl step (step fs o) l) with (replay (step fs o) l).
  rewrite IH by exact Hl. apply files_step_nonwrite; destruct o; simpl in *; tauto.
Qed.

Lemma record_implies_content_same (dir : string) (a b : fsys) :
  files a = files b -> record_implies_content dir b -> record_implies_content dir a.
Proof.
  unfold record_implies_content. intros E H.
  rewrite !(is_file_same_files a b) by exact E. exact H.
Qed.

Lemma ric_write_content (dir : string) (fs : fsys) (c : string) :
  record_implies_content dir fs ->
  record_implies_content dir (step fs (OWrite (NPath.join [dir; "SKILL.md"]) c)).
Proof.
  unfold record_implies_content. intros H Hm.
  destruct (can_write fs (NPath.join [dir; "SKILL.md"])) eqn:E.
  - now apply is_file_write_same.
  - unfold step in *. rewrite E in *. exact (H Hm).
Qed.

(** C7: a successful fresh install performs, after the existence test, the
    fetches and [mkdir], exactly two writes, the content file first and the
    Install Record second; stopping after the first write leaves the content
    file without the record; and if the target directory held no record
    without content before, no prefix of the operation sequence leaves one. *)
Theorem install_content_before_record (root cwd owner repo raw : string) (force : bool)
    (w w' : world) (r : InstallResult) :
  installSkillFromGitHub root cwd owner repo raw force w = (Ok r, w') ->
  success r = true -> alreadyInstalled r = None ->
  exists s pre c m,
    sanitizeSkillName root cwd raw = Some s
    /\ w_log w' = w_log w ++ pre ++ [OWrite (NPath.join [NPath.join [root; s]; "SKILL.md"]) c;
                                     OWrite (NPath.join [NPath.join [root; s]; ".vibeclaw.json"]) m]
    /\ Forall (fun o => is_write o = false) pre
    /\ is_file (replay (cur w) (pre ++ [OWrite (NPath.join [NPath.join [root; s]; "SKILL.md"]) c]))
               (NPath.join [NPath.join [root; s]; "SKILL.md"]) = true
    /\ (record_implies_content (NPath.join [root; s]) (cur w) ->
        forall k, record_implies_content (NPath.join [root; s])
          (replay (cur w)
             (take k (pre ++ [OWrite (NPath.join [NPath.join [root; s]; "SKILL.md"]) c;
                              OWrite (NPath.join [NPath.join [root; s]; ".vibeclaw.json"]) m])))).
Proof.
  intros H Hs Ha.
  destruct (install_fresh root cwd owner repo raw force w w' r H Hs Ha)
    as [s [c [u [fetched [Es [_ [_ [Hw' [_ [Ew1 _]]]]]]]]]].
  set (dir := NPath.join [root; s]) in *.
  set (file := NPath.join [dir; "SKILL.md"]) in *.
  set (meta := NPath.join [dir; ".vibeclaw.json"]) in *.
  set (m := meta_json (w_now w) owner repo u raw) in *.
  set (pre := OAccess file :: map OFetch fetched ++ [OMkdir dir]).
  assert (Hpre : Forall (fun o => match o with OAccess _ | OFetch _ | OMkdir _ | OReaddir _ => True
                                           | _ => False end) pre).
  { unfold pre. constructor; [exact I|]. apply Forall_app. split; [|now constructor].
    clear -fetched. induction fetched as [|x l IHf]; simpl; constructor; auto. }
  assert (Hrp : replay (cur w) pre = step (cur w) (OMkdir dir)).
  { unfold pre. rewrite app_comm_cons, replay_app, replay_access_fetches. reflexivity. }
  exists s, pre, c, m. split; [exact Es|]. split; [|split; [|split]].
  - rewrite Hw'. simpl. f_equal. unfold pre. rewrite <- !app_assoc. reflexivity.
  - eapply Forall_impl; [exact Hpre|]. intros o Ho. destruct o; simpl in *; tauto.
  - rewrite replay_app, Hrp. cbn [replay foldl]. now apply is_file_write_same.
  - intros Hinv k.
    rewrite take_app, replay_app.
    assert (Hf : files (replay (cur w) (take k pre)) = files (cur w))
      by (apply replay_keeps_files, Forall_take, Hpre).
    destruct (k - length pre)%nat as [|[|j]] eqn:Ek; cbn [take replay foldl].
    + exact (record_implies_content_same dir _ _ Hf Hinv).
    + apply ric_write_content.
      exact (record_implies_content_same dir _ _ Hf Hinv).
    + rewrite take_nil, take_ge by lia. cbn [foldl]. rewrite Hrp.
      unfold record_implies_content. intros _.
      apply is_file_write_keep, is_file_write_same. exact Ew1.
Qed.

(** Witness of C7: a fresh install of [x] at the default root. *)
Lemma install_content_before_record_witness :
  match installSkillFromGitHub root0 "/" "o" "r" "x" false (world_at fs_home net_fourth) with
  | (Ok r, w') =>
      success r = true /\ alreadyInstalled r = None /\
      exists s pre c m,
        sanitizeSkillName root0 "/" "x" = Some s
        /\ w_log w' = w_log (world_at fs_home net_fourth) ++ pre
                      ++ [OWrite (NPath.join [NPath.join [root0; s]; "SKILL.md"]) c;
                          OWrite (NPath.join [NPath.join [root0; s]; ".vibeclaw.json"]) m]
        /\ Forall (fun o => is_write o = false) pre
        /\ is_file (replay fs_home
                     (pre ++ [OWrite (NPath.join [NPath.join [root0; s]; "SKILL.md"]) c]))
                   (NPath.join [NPath.join [root0; s]; "SKILL.md"]) = true
        /\ (record_implies_content (NPath.join [root0; s]) fs_home ->
            forall k, record_implies_content (NPath.join [root0; s])
              (replay fs_home
                 (take k (pre ++ [OWrite (NPath.join [NPath.join [root0; s]; "SKILL.md"]) c;
                                  OWrite (NPath.join [NPath.join [root0; s]; ".vibeclaw.json"]) m]))))
  | _ => False
  end.
Proof.
  destruct (installSkillFromGitHub root0 "/" "o" "r" "x" false (world_at fs_home net_fourth))
    as [[r|e] w'] eqn:E.
  2:{ vm_compute in E. discriminate E. }
  assert (Hs : success r = true /\ alreadyInstalled r = None).
  { pose proof E as E'. vm_compute in E'. injection E' as <- _. split; reflexivity. }
  destruct Hs as [Hs Ha]. split; [exact Hs|]. split; [exact Ha|].
  exact (install_content_before_record root0 "/" "o" "r" "x" false
           (world_at fs_home net_fourth) w' r E Hs Ha).
Defined.

(** ** Uninstall *)

Lemma sanitize_some_good (root cwd raw s : string) :
  normal_abs root -> sanitizeSkillName root cwd raw = Some s -> good_seg s = true.
Proof.
  intros Hroot Es. rewrite (sanitize_normal root cwd raw Hroot) in Es.
  destruct (String.eqb (strip raw) "" || Str.includes ".." (strip raw)
            || Str.startsWith "." (strip raw)) eqn:E; [discriminate|].
  injection Es as <-. apply clean_good_seg; [exact E|apply strip_no_slash].
Qed.

Lemma normal_abs_join (d x : string) :
  normal_abs d -> good_seg x = true -> normal_abs (NPath.join [d; x]).
Proof.
  intros [segs [Hne [Hall ->]]] Hx. exists (segs ++ [x]). split.
  - destruct segs; [contradiction|discriminate].
  - split; [apply Forall_app; split; [exact Hall|now constructor]|].
    now apply join_child.
Qed.

Lemma parent_join (d x : string) :
  normal_abs d -> good_seg x = true -> parent (NPath.join [d; x]) = d.
Proof.
  intros [segs [Hne [Hall ->]]] Hx. rewrite join_child by assumption.
  unfold parent. rewrite split_slash_cons, split_join.
  - rewrite app_comm_cons, removelast_last. rewrite join_segs_cons by exact Hne. reflexivity.
  - destruct segs; [contradiction|discriminate].
  - apply Forall_good_no_slash, Forall_app. split; [exact Hall|now constructor].
Qed.

Lemma normal_abs_nonempty (d : string) : normal_abs d -> d <> "".
Proof. intros [segs [_ [_ ->]]]. discriminate. Qed.

Lemma rm_removes (fs : fsys) (p q : string) :
  exists_path fs p = true -> at_or_below p q = true ->
  exists_path (step fs (ORm p)) q = false.
Proof.
  intros Hp Hq. unfold step. rewrite Hp. unfold exists_path, is_file, is_dir. cbn [files dirs].
  apply orb_false_iff. split.
  - destruct (filter _ (files fs) !! q) eqn:E; [|reflexivity].
    exfalso. apply map_lookup_filter_Some in E as [_ HP]. cbn in HP. rewrite Hq in HP.
    exact HP.
  - apply bool_decide_eq_false_2. rewrite elem_of_filter. intros [HP _].
    rewrite Hq in HP. exact HP.
Qed.

Lemma rm_keeps (fs : fsys) (p q : string) :
  at_or_below p q = false ->
  is_file (step fs (ORm p)) q = is_file fs q /\ is_dir (step fs (ORm p)) q = is_dir fs q.
Proof.
  intros Hq. unfold step. destruct (exists_path fs p); [|split; reflexivity].
  unfold is_file, is_dir. cbn [files dirs]. split.
  - rewrite map_lookup_filter. destruct (files fs !! q); [|reflexivity].
    simpl. rewrite option_guard_True; [reflexivity|]. cbn. rewrite Hq. exact I.
  - apply bool_decide_ext. rewrite elem_of_filter. rewrite Hq. cbn. tauto.
Qed.

(** C8: at a normalized absolute root and on a filesystem where the parent
    of every path exists, [uninstall] returns [false] without any operation
    for a rejected name; removes the skill directory (every path at or below
    it, nothing else) and returns [true] exactly when the Install Record
    exists; and otherwise returns [false] after the one existence test,
    leaving the filesystem unchanged. *)
Theorem uninstallSkill_spec (root cwd raw : string) (w : world) :
  normal_abs root -> parents_exist (cur w) ->
  match sanitizeSkillName root cwd raw with
  | None => uninstallSkill root cwd raw w = (Ok false, w)
  | Some s =>
      if exists_path (cur w) (NPath.join [NPath.join [root; s]; ".vibeclaw.json"]) then
        uninstallSkill root cwd raw w =
          (Ok true, emits [OAccess (NPath.join [NPath.join [root; s]; ".vibeclaw.json"]);
                           ORm (NPath.join [root; s])] w)
        /\ cur (emits [OAccess (NPath.join [NPath.join [root; s]; ".vibeclaw.json"]);
                       ORm (NPath.join [root; s])] w) = step (cur w) (ORm (NPath.join [root; s]))
        /\ (forall q, at_or_below (NPath.join [root; s]) q = true ->
             exists_path (step (cur w) (ORm (NPath.join [root; s]))) q = false)
        /\ (forall q, at_or_below (NPath.join [root; s]) q = false ->
             is_file (step (cur w) (ORm (NPath.join [root; s]))) q = is_file (cur w) q
             /\ is_dir (step (cur w) (ORm (NPath.join [root; s]))) q = is_dir (cur w) q)
      else
        uninstallSkill root cwd raw w =
          (Ok false, emit (OAccess (NPath.join [NPath.join [root; s]; ".vibeclaw.json"])) w)
        /\ cur (emit (OAccess (NPath.join [NPath.join [root; s]; ".vibeclaw.json"])) w) = cur w
  end.
Proof.
  intros Hroot Hpar. unfold uninstallSkill.
  destruct (sanitizeSkillName root cwd raw) as [s|] eqn:Es; [|reflexivity].
  assert (Hg : good_seg s = true) by exact (sanitize_some_good root cwd raw s Hroot Es).
  set (dir := NPath.join [root; s]).
  assert (Hdir : normal_abs dir) by (apply normal_abs_join; assumption).
  set (meta := NPath.join [dir; ".vibeclaw.json"]).
  unfold try_catch, mbind, M_bind, fs_access, fs_rm_rf, guarded, mret, M_ret.
  rewrite cur_emit. change (step (cur w) (OAccess meta)) with (cur w).
  destruct (exists_path (cur w) meta) eqn:Em.
  - assert (Hd : exists_path (cur w) dir = true).
    { assert (Hin : meta ∈ dom (files (cur w)) ∪ dirs (cur w)).
      { unfold exists_path, is_file, is_dir in Em. apply orb_true_iff in Em as [E|E].
        - apply elem_of_union_l, elem_of_dom.
          destruct (files (cur w) !! meta); [eexists; reflexivity|discriminate].
        - apply elem_of_union_r. now apply bool_decide_eq_true in E. }
      destruct (Hpar meta Hin) as [Hp|Hp]; unfold meta in Hp;
        rewrite (parent_join dir ".vibeclaw.json" Hdir eq_refl) in Hp.
      - exfalso. exact (normal_abs_nonempty dir Hdir Hp).
      - unfold exists_path. now rewrite Hp, orb_true_r. }
    rewrite Hd. split; [|split; [|split]].
    + now rewrite !emit_emits, emits_emits.
    + rewrite cur_emits. reflexivity.
    + intros q Hq. now apply rm_removes.
    + intros q Hq. now apply rm_keeps.
  - split; reflexivity.
Qed.

(** the default root with [x] installed has every parent directory *)
Lemma parents_exist_fs_inst : parents_exist fs_inst.
Proof. apply (bool_decide_unpack _). vm_compute. reflexivity. Qed.

(** Witness of C8: uninstalling the installed [x] at the default root. *)
Lemma uninstallSkill_spec_witness :
  uninstallSkill root0 "/" "x" (world_at fs_inst net_none) =
  (Ok true, emits [OAccess (NPath.join [NPath.join [root0; "x"]; ".vibeclaw.json"]);
                   ORm (NPath.join [root0; "x"])] (world_at fs_inst net_none)).
Proof.
  pose proof (uninstallSkill_spec root0 "/" "x" (world_at fs_inst net_none)
                normal_abs_root0 parents_exist_fs_inst) as H.
  assert (Es : sanitizeSkillName root0 "/" "x" = Some "x") by (vm_compute; reflexivity).
  rewrite Es in H.
  assert (Ee : exists_path (cur (world_at fs_inst net_none))
                 (NPath.join [NPath.join [root0; "x"]; ".vibeclaw.json"]) = true)
    by (vm_compute; reflexivity).
  rewrite Ee in H. exact (proj1 H).
Defined.

(** ** Listing *)

Lemma list_entry_eq (root : string) (e : string * bool) (w : world) :
  list_entry root e w =
  if e.2 then
    (if exists_path (cur w) (NPath.join [root; e.1; ".vibeclaw.json"]) then Ok [e.1] else Ok [],
     emit (OAccess (NPath.join [root; e.1; ".vibeclaw.json"])) w)
  else (Ok [], w).
Proof.
  unfold list_entry, try_catch, mbind, M_bind, fs_access, guarded, mret, M_ret.
  destruct e.2; [|reflexivity].
  destruct (exists_path (cur w) (NPath.join [root; e.1; ".vibeclaw.json"])); reflexivity.
Qed.

Lemma list_loop_names (root : string) (fs : fsys) (E : list string) (w : world) :
  cur w = fs ->
  list_loop root (map (fun n => (n, is_dir fs (root +:+ "/" +:+ n))) E) w =
  (Ok (List.filter (fun n => is_dir fs (root +:+ "/" +:+ n)
                             && exists_path fs (NPath.join [root; n; ".vibeclaw.json"])) E),
   emits (map (fun n => OAccess (NPath.join [root; n; ".vibeclaw.json"]))
              (List.filter (fun n => is_dir fs (root +:+ "/" +:+ n)) E)) w).
Proof.
  revert w; induction E as [|n E IH]; intros w Hw.
  - simpl. now rewrite emits_nil.
  - cbn [map list_loop]. unfold mbind at 1, M_bind at 1. rewrite list_entry_eq. cbn [fst snd].
    cbn [List.filter].
    destruct (is_dir fs (root +:+ "/" +:+ n)) eqn:Ed; cbn [andb].
    + unfold mbind, M_bind. rewrite IH by (rewrite cur_emit, Hw; reflexivity).
      rewrite Hw. unfold mret, M_ret. rewrite emit_emits, emits_emits.
      destruct (exists_path fs (NPath.join [root; n; ".vibeclaw.json"])); reflexivity.
    + unfold mbind, M_bind. rewrite IH by exact Hw. reflexivity.
Qed.

Lemma cur_emits_access (g : string -> string) (l : list string) (w : world) :
  cur (emits (map (fun n => OAccess (g n)) l) w) = cur w.
Proof. rewrite cur_emits. induction l as [|x l IH]; [reflexivity|exact IH]. Qed.

(** C9, as the code has it: [fs.access] tests existence only. [list]
    succeeds, changes nothing, and returns without repetition exactly the
    names of the entries directly under the root that are directories and
    hold an existing Install Record (whether or not it can be read); when
    the root is no directory it returns the empty list. *)
Theorem listInstalledSkills_spec (root : string) (w : world) :
  exists l ops,
    listInstalledSkills root w = (Ok l, emits ops w)
    /\ cur (emits ops w) = cur w
    /\ NoDup l
    /\ (is_dir (cur w) root = false -> l = [])
    /\ (is_dir (cur w) root = true ->
        forall n, In n l <->
          n ∈ child_set (cur w) root
          /\ is_dir (cur w) (root +:+ "/" +:+ n) = true
          /\ exists_path (cur w) (NPath.join [root; n; ".vibeclaw.json"]) = true).
Proof.
  unfold listInstalledSkills, try_catch, mbind, M_bind, fs_readdir.
  destruct (is_dir (cur w) root) eqn:Er.
  - unfold entries.
    rewrite (list_loop_names root (cur w) (elements (child_set (cur w) root)) (emit (OReaddir root) w))
      by (rewrite cur_emit; reflexivity).
    eexists _, _. split; [rewrite emit_emits, emits_emits; reflexivity|].
    split; [rewrite <- emits_emits, cur_emits_access, cur_emits; reflexivity|].
    split; [apply NoDup_ListNoDup, List.NoDup_filter, NoDup_ListNoDup, NoDup_elements|].
    split; [discriminate|].
    intros _ n. rewrite filter_In, andb_true_iff, <- list_elem_of_In, elem_of_elements.
    tauto.
  - unfold mret, M_ret. exists [], [OReaddir root]. split; [reflexivity|].
    split; [rewrite cur_emits; reflexivity|].
    split; [constructor|]. split; [reflexivity|discriminate].
Qed.

(** Counterexample to C9 as stated: the Install Record of [x] cannot be
    read, yet [list] reports [x]. *)
Lemma list_reports_unreadable_record :
  is_file fs_inst_noread (NPath.join [root0; "x"; ".vibeclaw.json"]) = true
  /\ bool_decide (NPath.join [root0; "x"; ".vibeclaw.json"] ∈ noread fs_inst_noread) = true
  /\ fst (listInstalledSkills root0 (world_at fs_inst_noread net_none)) = Ok ["x"].
Proof. split; [|split]; vm_compute; reflexivity. Qed.

(** ** Witnesses of the remaining claims *)

(** Witness of C1: the failed deep scan blocks despite the low score. *)
Lemma checkSecurity_policy_witness :
  checkSecurity skill_unsafe =
  Some (cisco_block_msg skill_unsafe
          {| is_safe := false; max_severity := "high"; findings_count := 2 |}).
Proof.
  exact (proj1 (checkSecurity_policy skill_unsafe)
           {| is_safe := false; max_severity := "high"; findings_count := 2 |}
           eq_refl eq_refl).
Defined.

(** Witness of C4: an ok body without front matter is skipped. *)
Lemma looksLikeSkillMd_iff_witness :
  probe ["https://raw.githubusercontent.com/o/r/master/SKILL.md"]
    (world_at fs_home (fun _ => Some (true, "hello")))
  = probe [] (emit (OFetch "https://raw.githubusercontent.com/o/r/master/SKILL.md")
                (world_at fs_home (fun _ => Some (true, "hello")))).
Proof.
  apply (proj2 (looksLikeSkillMd_iff "hello")); reflexivity.
Defined.

(** Witness of C10: the fresh install of [x] at the default root. *)
Lemma install_result_names_witness :
  match installSkillFromGitHub root0 "/" "o" "r" "x" false (world_at fs_home net_fourth) with
  | (Ok r, w') =>
      skillName r = "x"
      /\ (forall p, installPath r = Some p ->
           exists s, sanitizeSkillName root0 "/" "x" = Some s /\ p = NPath.join [root0; s])
  | _ => False
  end.
Proof.
  destruct (installSkillFromGitHub root0 "/" "o" "r" "x" false (world_at fs_home net_fourth))
    as [[r|e] w'] eqn:E.
  - exact (install_result_names root0 "/" "o" "r" "x" false _ w' r E).
  - vm_compute in E. discriminate E.
Defined.

(** ** The security badge *)

(** X2: for a skill the gate lets through, the badge reads [Verified safe]
    exactly when its deep scan reports safe, and [Scan pending] exactly when
    it has no deep scan and either no score or a negative one. *)
Theorem formatSecurityBadge_after_gate (skill : VibeResource) :
  checkSecurity skill = None ->
  (formatSecurityBadge skill = "🛡️ Verified safe (Cisco scan)" <->
     exists c, cisco_scan_result skill = Some c /\ is_safe c = true)
  /\ (formatSecurityBadge skill = "🔍 Scan pending" <->
      cisco_scan_result skill = None
      /\ (security_score skill = None \/ exists sc, security_score skill = Some sc /\ sc < 0)).
Proof.
  unfold checkSecurity, score_gate, formatSecurityBadge.
  destruct (cisco_scan_result skill) as [c|]; [destruct (is_safe c) eqn:Ec|]; cbn [negb];
    destruct (security_score skill) as [sc|]; try (destruct (25 <=? sc) eqn:E25);
    intros Hg; try discriminate Hg.
  - split; [split; [intros _; now exists c|reflexivity]|].
    split; [discriminate|intros [H _]; discriminate].
  - split; [split; [intros _; now exists c|reflexivity]|].
    split; [discriminate|intros [H _]; discriminate].
  - apply Z.leb_gt in E25.
    destruct (Z.eqb_spec sc 0) as [->|H0]; cbn [andb].
    + split; [split; [discriminate|intros [c [Hc _]]; discriminate]|].
      split; [discriminate|]. intros [_ [H|[sc' [H Hlt]]]]; [discriminate|].
      injection H as <-. lia.
    + destruct (Z.ltb_spec 0 sc) as [Hpos|Hneg]; cbn [andb].
      * rewrite (proj2 (Z.ltb_lt sc 25) E25).
        split; [split; [discriminate|intros [c [Hc _]]; discriminate]|].
        split; [discriminate|]. intros [_ [H|[sc' [H Hlt]]]]; [discriminate|].
        injection H as <-. lia.
      * split; [split; [discriminate|intros [c [Hc _]]; discriminate]|].
        split; [intros _; split; [reflexivity|right; exists sc; split; [reflexivity|lia]]|
                reflexivity].
  - split; [split; [discriminate|intros [c [Hc _]]; discriminate]|].
    split; [intros _; split; [reflexivity|now left]|reflexivity].
Qed.

(** Witness of X2: a skill with neither a deep scan nor a score. *)
Lemma formatSecurityBadge_after_gate_witness :
  formatSecurityBadge
    {| res_name := "s"; github_owner := Some "o"; github_repo := Some "r"; stars := 0;
       security_score := None; security_flags := None; cisco_scan_result := None |}
  = "🔍 Scan pending".
Proof.
  apply (proj2 (proj2 (formatSecurityBadge_after_gate
    {| res_name := "s"; github_owner := Some "o"; github_repo := Some "r"; stars := 0;
       security_score := None; security_flags := None; cisco_scan_result := None |}
    eq_refl))).
  split; [reflexivity|now left].
Defined.

(** ** The install tool *)

Lemma startsWith_app' (p s t : string) : Str.startsWith p (p +:+ s +:+ t) = true.
Proof. apply startsWith_app. Qed.

Lemma checkSecurity_nonempty (skill : VibeResource) (m : string) :
  checkSecurity skill = Some m -> String.eqb m "" = false.
Proof.
  intros H. apply checkSecurity_blocked_prefix in H.
  destruct m; [discriminate H|reflexivity].
Qed.

(** [install_tool_execute] once the hit has passed every check *)
Lemma install_tool_passed (root cwd : string) (search : string -> outcome (bool * list ToolResource))
    (query : string) (force : option bool) (w : world) (skill : ToolResource)
    (rest : list ToolResource) (owner repo : string) :
  search query = Ok (true, skill :: rest) ->
  github_owner (tr_res skill) = Some owner -> github_repo (tr_res skill) = Some repo ->
  owner <> "" -> repo <> "" -> checkSecurity (tr_res skill) = None ->
  install_tool_execute root cwd search query force w =
  match installSkillFromGitHub root cwd owner repo (res_name (tr_res skill)) (force_flag force) w with
  | (Ok r, w') => (Ok (install_output skill r), w')
  | (Exc e, w') => (Ok (install_error_msg e), w')
  end.
Proof.
  intros Hs Ho Hr Hon Hrn Hg. unfold install_tool_execute. rewrite Hs, Ho, Hr, Hg.
  rewrite (proj2 (String.eqb_neq owner "") Hon), (proj2 (String.eqb_neq repo "") Hrn).
  cbn [orb]. unfold try_catch, mbind, M_bind, mret, M_ret.
  destruct (installSkillFromGitHub root cwd owner repo (res_name (tr_res skill)) (force_flag force) w)
    as [[r|e] w']; reflexivity.
Qed.

(** X3: the install tool leaves the world as it was (no filesystem
    operation, no download) unless the first search hit has a non-empty
    GitHub owner and repository and the security gate lets it through. *)
Theorem install_tool_gate_first (root cwd : string)
    (search : string -> outcome (bool * list ToolResource)) (query : string)
    (force : option bool) (w w' : world) (o : outcome string) :
  install_tool_execute root cwd search query force w = (o, w') -> w' <> w ->
  exists skill rest owner repo,
    search query = Ok (true, skill :: rest)
    /\ github_owner (tr_res skill) = Some owner /\ github_repo (tr_res skill) = Some repo
    /\ owner <> "" /\ repo <> "" /\ checkSecurity (tr_res skill) = None.
Proof.
  intros H Hne. unfold install_tool_execute, try_catch, mbind, M_bind, mret, M_ret in H.
  destruct (search query) as [[[|] [|skill rest]]|e] eqn:Es;
    try (injection H as _ <-; contradiction).
  destruct (github_owner (tr_res skill)) as [owner|] eqn:Ho;
    [|injection H as _ <-; contradiction].
  destruct (github_repo (tr_res skill)) as [repo|] eqn:Hr;
    [|injection H as _ <-; contradiction].
  destruct (String.eqb_spec owner "") as [Heo|Heo]; [injection H as _ <-; contradiction|].
  destruct (String.eqb_spec repo "") as [Her|Her]; [injection H as _ <-; contradiction|].
  cbn [orb] in H.
  destruct (checkSecurity (tr_res skill)) as [m|] eqn:Eg.
  - rewrite (checkSecurity_nonempty _ _ Eg) in H. injection H as _ <-. contradiction.
  - now exists skill, rest, owner, repo.
Qed.

(** Witness of X3: the hit passes, and the tool installs it. *)
Lemma install_tool_gate_first_witness :
  exists skill rest owner repo,
    (fun _ => Ok (true, [tool_hit])) "x" = Ok (true, skill :: rest)
    /\ github_owner (tr_res skill) = Some owner /\ github_repo (tr_res skill) = Some repo
    /\ owner <> "" /\ repo <> "" /\ checkSecurity (tr_res skill) = None.
Proof.
  destruct (install_tool_execute root0 "/" (fun _ => Ok (true, [tool_hit])) "x" None
              (world_at fs_home net_fourth)) as [o w'] eqn:E.
  apply (install_tool_gate_first root0 "/" (fun _ => Ok (true, [tool_hit])) "x" None
           (world_at fs_home net_fourth) w' o E).
  intros Hw. apply (f_equal (fun v => length (w_log v))) in Hw.
  vm_compute in E. injection E as _ <-. vm_compute in Hw. discriminate Hw.
Defined.

(** X4: once the hit has passed the checks, the install tool has exactly the
    effects of [installSkillFromGitHub] on the hit's owner, repository and
    name, always answers with a text, and the text announces a fresh install
    ([✓ Installed ...]) exactly when the installer reports success without
    [alreadyInstalled]. *)
Theorem install_tool_runs_installer (root cwd : string)
    (search : string -> outcome (bool * list ToolResource)) (query : string)
    (force : option bool) (w : world) (skill : ToolResource) (rest : list ToolResource)
    (owner repo : string) :
  search query = Ok (true, skill :: rest) ->
  github_owner (tr_res skill) = Some owner -> github_repo (tr_res skill) = Some repo ->
  owner <> "" -> repo <> "" -> checkSecurity (tr_res skill) = None ->
  snd (install_tool_execute root cwd search query force w)
    = snd (installSkillFromGitHub root cwd owner repo (res_name (tr_res skill)) (force_flag force) w)
  /\ exists text, fst (install_tool_execute root cwd search query force w) = Ok text
    /\ (Str.startsWith "✓ Installed " text = true <->
        exists r, fst (installSkillFromGitHub root cwd owner repo (res_name (tr_res skill))
                         (force_flag force) w) = Ok r
                  /\ success r = true /\ alreadyInstalled r <> Some true).
Proof.
  intros Hs Ho Hr Hon Hrn Hg.
  rewrite (install_tool_passed root cwd search query force w skill rest owner repo Hs Ho Hr Hon Hrn Hg).
  destruct (installSkillFromGitHub root cwd owner repo (res_name (tr_res skill)) (force_flag force) w)
    as [[r|e] w'] eqn:E; cbn [fst snd]; (split; [reflexivity|]).
  - exists (install_output skill r). split; [reflexivity|].
    unfold install_output.
    destruct (success r) eqn:Esu; cbn [negb].
    + destruct (alreadyInstalled r) as [[|]|] eqn:Ea.
      * split; [intros H; vm_compute in H; discriminate H|].
        intros [r' [Hr' [_ Hn]]]. injection Hr' as <-. contradiction.
      * split; [intros _; exists r; repeat split; [exact Esu|rewrite Ea; discriminate]|].
        intros _. apply startsWith_app'.
      * split; [intros _; exists r; repeat split; [exact Esu|rewrite Ea; discriminate]|].
        intros _. apply startsWith_app'.
    + split; [intros H; vm_compute in H; discriminate H|].
      intros [r' [Hr' [Hs' _]]]. injection Hr' as <-. congruence.
  - exists (install_error_msg e). split; [reflexivity|].
    split; [intros H; vm_compute in H; discriminate H|].
    intros [r' [Hr' _]]. discriminate Hr'.
Qed.

(** Witness of X4: the hit of [tool_hit] at the default root. *)
Lemma install_tool_runs_installer_witness :
  snd (install_tool_execute root0 "/" (fun _ => Ok (true, [tool_hit])) "x" None
         (world_at fs_home net_fourth))
  = snd (installSkillFromGitHub root0 "/" "o" "r" "x" false (world_at fs_home net_fourth)).
Proof.
  exact (proj1 (install_tool_runs_installer root0 "/" (fun _ => Ok (true, [tool_hit])) "x" None
                  (world_at fs_home net_fourth) tool_hit [] "o" "r" eq_refl eq_refl eq_refl
                  ltac:(discriminate) ltac:(discriminate) eq_refl)).
Defined.

(** ** The manage tool *)

Lemma exists_path_in_domain (fs : fsys) (p : string) :
  exists_path fs p = true -> p ∈ dom (files fs) ∪ dirs fs.
Proof.
  unfold exists_path, is_file, is_dir. intros E. apply orb_true_iff in E as [E|E].
  - apply elem_of_union_l, elem_of_dom.
    destruct (files fs !! p); [eexists; reflexivity|discriminate].
  - apply elem_of_union_r. now apply bool_decide_eq_true in E.
Qed.

(** [uninstallSkill] on a name the sanitizer accepts, at a normalized root *)
Lemma uninstall_unfold (root cwd raw s : string) (w : world) :
  normal_abs root -> parents_exist (cur w) -> sanitizeSkillName root cwd raw = Some s ->
  uninstallSkill root cwd raw w =
  if exists_path (cur w) (NPath.join [NPath.join [root; s]; ".vibeclaw.json"]) then
    (Ok true, emits [OAccess (NPath.join [NPath.join [root; s]; ".vibeclaw.json"]);
                     ORm (NPath.join [root; s])] w)
  else (Ok false, emit (OAccess (NPath.join [NPath.join [root; s]; ".vibeclaw.json"])) w).
Proof.
  intros Hroot Hpar Es. unfold uninstallSkill. rewrite Es.
  assert (Hdir : normal_abs (NPath.join [root; s]))
    by (apply normal_abs_join; [exact Hroot|exact (sanitize_some_good root cwd raw s Hroot Es)]).
  unfold try_catch, mbind, M_bind, fs_access, fs_rm_rf, guarded, mret, M_ret.
  rewrite cur_emit.
  change (step (cur w) (OAccess (NPath.join [NPath.join [root; s]; ".vibeclaw.json"]))) with (cur w).
  destruct (exists_path (cur w) (NPath.join [NPath.join [root; s]; ".vibeclaw.json"])) eqn:Em;
    [|reflexivity].
  destruct (Hpar _ (exists_path_in_domain _ _ Em)) as [Hp|Hp];
    rewrite (parent_join (NPath.join [root; s]) ".vibeclaw.json" Hdir eq_refl) in Hp.
  - exfalso. exact (normal_abs_nonempty _ Hdir Hp).
  - unfold exists_path. rewrite Hp, orb_true_r. now rewrite !emit_emits, emits_emits.
Qed.

(** X5: at a normalized root, on a filesystem where every parent directory
    exists, [manage uninstall n] (n non-empty) has the effects of
    [uninstallSkill n] and answers [✓ Uninstalled ...] exactly when [n]
    sanitizes and the Install Record of the sanitized name exists. *)
Theorem manage_uninstall_reports (root cwd n : string) (w : world) :
  normal_abs root -> parents_exist (cur w) -> n <> "" ->
  snd (manage_execute root cwd "uninstall" (Some n) w) = snd (uninstallSkill root cwd n w)
  /\ (fst (manage_execute root cwd "uninstall" (Some n) w) = Ok (uninstalled_msg n) <->
      exists s, sanitizeSkillName root cwd n = Some s
        /\ exists_path (cur w) (NPath.join [NPath.join [root; s]; ".vibeclaw.json"]) = true).
Proof.
  intros Hroot Hpar Hn.
  assert (Hm : manage_execute root cwd "uninstall" (Some n) w =
               match uninstallSkill root cwd n w with
               | (Ok b, w') => (Ok (if b then uninstalled_msg n
                                    else Str.dq +:+ n +:+ Str.dq
                                         +:+ " was not found or was not installed via VibeClaw."), w')
               | (Exc e, w') => (Exc e, w')
               end).
  { unfold manage_execute. cbn [String.eqb Ascii.eqb Bool.eqb andb].
    rewrite (proj2 (String.eqb_neq n "") Hn). unfold mbind, M_bind, mret, M_ret.
    destruct (uninstallSkill root cwd n w) as [[[|]|e] w']; reflexivity. }
  rewrite Hm.
  destruct (sanitizeSkillName root cwd n) as [s|] eqn:Es.
  - rewrite (uninstall_unfold root cwd n s w Hroot Hpar Es).
    destruct (exists_path (cur w) (NPath.join [NPath.join [root; s]; ".vibeclaw.json"])) eqn:Ee;
      cbn [fst snd]; (split; [reflexivity|]).
    + split; [intros _; now exists s|reflexivity].
    + split.
      * intros H. injection H as H; try discriminate H.
      * intros [s' [Es' He]]. injection Es' as <-. congruence.
  - assert (Hu : uninstallSkill root cwd n w = (Ok false, w))
      by (unfold uninstallSkill; rewrite Es; reflexivity).
    rewrite Hu. cbn [fst snd]. split; [reflexivity|]. split.
    + intros H. injection H as H; try discriminate H.
    + intros [s' [Es' _]]. discriminate Es'.
Qed.

(** Witness of X5: uninstalling the installed [x] at the default root. *)
Lemma manage_uninstall_reports_witness :
  fst (manage_execute root0 "/" "uninstall" (Some "x") (world_at fs_inst net_none))
  = Ok (uninstalled_msg "x").
Proof.
  apply (proj2 (proj2 (manage_uninstall_reports root0 "/" "x" (world_at fs_inst net_none)
                         normal_abs_root0 parents_exist_fs_inst ltac:(discriminate)))).
  exists "x". split; vm_compute; reflexivity.
Defined.

(** ** The manage tool's [list] action *)

(** one run of [listInstalledSkills]: a [readdir] of the root, then one
    [access] per child directory *)
Lemma list_run (root : string) (w : world) :
  listInstalledSkills root w =
  if is_dir (cur w) root then
    (Ok (List.filter (fun n => is_dir (cur w) (root +:+ "/" +:+ n)
                               && exists_path (cur w) (NPath.join [root; n; ".vibeclaw.json"]))
                     (elements (child_set (cur w) root))),
     emits ([OReaddir root] ++
            map (fun n => OAccess (NPath.join [root; n; ".vibeclaw.json"]))
                (List.filter (fun n => is_dir (cur w) (root +:+ "/" +:+ n))
                             (elements (child_set (cur w) root)))) w)
  else (Ok [], emits [OReaddir root] w).
Proof.
  unfold listInstalledSkills, try_catch, mbind, M_bind, fs_readdir.
  destruct (is_dir (cur w) root) eqn:Er; [|reflexivity].
  unfold entries.
  rewrite (list_loop_names root (cur w) (elements (child_set (cur w) root)) (emit (OReaddir root) w))
    by (rewrite cur_emit; reflexivity).
  rewrite emit_emits, emits_emits. reflexivity.
Qed.

Lemma lfilter_nil_iff {A} (f : A -> bool) (l : list A) :
  List.filter f l = [] <-> forall x, In x l -> f x = false.
Proof.
  induction l as [|a l IH]; simpl.
  - split; [intros _ x []|reflexivity].
  - destruct (f a) eqn:Ef; split.
    + discriminate.
    + intros H. rewrite (H a (or_introl eq_refl)) in Ef. discriminate.
    + intros H x [<-|Hx]; [exact Ef|exact (proj1 IH H x Hx)].
    + intros H. apply IH. intros x Hx. exact (H x (or_intror Hx)).
Qed.

(** the loop that appends the [  - name] lines keeps the first character *)
Lemma list_lines_head (init : string) (l : list string) :
  init <> "" ->
  String.get 0 (foldl (fun out name => out +:+ "  - " +:+ name +:+ Str.nl) init l)
  = String.get 0 init.
Proof.
  revert init; induction l as [|x l IH]; intros init Hi; [reflexivity|].
  simpl foldl. rewrite IH.
  - destruct init; [congruence|reflexivity].
  - destruct init; [congruence|discriminate].
Qed.

Lemma list_msg_empty (l : list string) :
  (match l with
   | [] => no_skills_msg
   | _ =>
       foldl (fun out name => out +:+ "  - " +:+ name +:+ Str.nl)
         ("VibeClaw-installed skills (" +:+ Str.of_Z (Z.of_nat (length l)) +:+ "):"
          +:+ Str.nl +:+ Str.nl)
         l
   end) = no_skills_msg <-> l = [].
Proof.
  destruct l as [|x l]; [split; reflexivity|]. split; [|discriminate].
  intros H. apply (f_equal (String.get 0)) in H. rewrite list_lines_head in H by discriminate.
  unfold no_skills_msg in H. simpl in H. discriminate H.
Qed.

(** X6: [manage list] (whatever [skillName]) always answers, changes no
    file, and answers [No skills installed via VibeClaw yet.] when the
    root is no directory; when it is one, exactly when no child of the
    root is a directory holding an Install Record. *)
Theorem manage_list_readonly (root cwd : string) (skillName : option string) (w : world) :
  exists content ops,
    manage_execute root cwd "list" skillName w = (Ok content, emits ops w)
    /\ cur (emits ops w) = cur w
    /\ (is_dir (cur w) root = false -> content = no_skills_msg)
    /\ (is_dir (cur w) root = true ->
        (content = no_skills_msg <->
         forall n, n ∈ child_set (cur w) root -> is_dir (cur w) (root +:+ "/" +:+ n) = true ->
           exists_path (cur w) (NPath.join [root; n; ".vibeclaw.json"]) = false)).
Proof.
  unfold manage_execute. cbn [String.eqb Ascii.eqb Bool.eqb andb].
  unfold mbind, M_bind. rewrite list_run.
  destruct (is_dir (cur w) root) eqn:Er.
  - eexists _, _. split; [reflexivity|].
    split; [rewrite <- emits_emits, cur_emits_access, cur_emits; reflexivity|].
    split; [discriminate|]. intros _.
    rewrite list_msg_empty, lfilter_nil_iff. split.
    + intros H n Hn Hd. specialize (H n). rewrite <- list_elem_of_In, elem_of_elements in H.
      specialize (H Hn). rewrite Hd in H. exact H.
    + intros H n Hn. rewrite <- list_elem_of_In, elem_of_elements in Hn.
      destruct (is_dir (cur w) (root +:+ "/" +:+ n)) eqn:Ed; [|reflexivity].
      exact (H n Hn Ed).
  - exists no_skills_msg, [OReaddir root]. split; [reflexivity|].
    split; [rewrite cur_emits; reflexivity|]. split; [reflexivity|discriminate].
Qed.

(** ** The client's query parameters *)

Lemma startsWith_app_r (p s t : string) :
  Str.startsWith p s = true -> Str.startsWith p (s +:+ t) = true.
Proof.
  revert s; induction p as [|c p IH]; intros s H; [reflexivity|].
  destruct s as [|d s]; [discriminate|].
  cbn [Str.startsWith String.append] in *. apply andb_true_iff in H as [H1 H2].
  rewrite H1. exact (IH s H2).
Qed.

Lemma startsWith_app_l (a b c : string) :
  Str.startsWith (a +:+ b) (a +:+ c) = Str.startsWith b c.
Proof.
  induction a as [|x a IH]; [reflexivity|].
  cbn [Str.startsWith String.append]. rewrite Ascii.eqb_refl. exact IH.
Qed.

Lemma digits_nonempty (f : nat) (n : Z) (acc : string) : acc <> "" -> Str.digits f n acc <> "".
Proof.
  revert n acc; induction f as [|f IH]; intros n acc H; [exact H|].
  cbn [Str.digits]. destruct (n <? 10); [discriminate|apply IH; discriminate].
Qed.

(** [String(n)] is never empty, so [limit] and [offset] are always sent *)
Lemma of_Z_nonempty (n : Z) : String.eqb (Str.of_Z n) "" = false.
Proof.
  apply String.eqb_neq. destruct n as [|p|p]; [discriminate| |discriminate].
  assert (Hs : exists f, Pos.size_nat p = S f) by (destruct p; eexists; reflexivity).
  destruct Hs as [f Hf]. unfold Str.of_Z. rewrite Hf. cbn [Str.digits].
  destruct (Z.pos p <? 10); [discriminate|apply digits_nonempty; discriminate].
Qed.

Lemma sp_set_absent (k v : string) (ps : list (string * string)) :
  ~ In k (map fst ps) -> sp_set k v ps = ps ++ [(k, v)].
Proof.
  induction ps as [|[k' v'] ps IH]; intros H; [reflexivity|].
  cbn [sp_set]. destruct (String.eqb k' k) eqn:E.
  - apply String.eqb_eq in E. subst k'. exfalso. apply H. left. reflexivity.
  - rewrite IH; [reflexivity|]. intros Hk. apply H. right. exact Hk.
Qed.

Lemma fetch_params_append (init params : list (string * string)) :
  List.NoDup (map fst params) ->
  (forall k, In k (map fst params) -> ~ In k (map fst init)) ->
  fetch_params init params = init ++ List.filter (fun kv => negb (String.eqb kv.2 "")) params.
Proof.
  unfold fetch_params. revert init.
  induction params as [|[k v] params IH]; intros init Hnd Hdis.
  - cbn. now rewrite app_nil_r.
  - inversion Hnd as [|k0 l0 Hk Hnd']. subst. cbn [fold_left List.filter fst snd].
    destruct (String.eqb v "") eqn:Ev; cbn [negb].
    + apply IH; [exact Hnd'|]. intros k' Hk'. apply Hdis. right. exact Hk'.
    + rewrite sp_set_absent by (apply Hdis; left; reflexivity).
      rewrite IH, <- app_assoc; [reflexivity|exact Hnd'|].
      intros k' Hk'. rewrite map_app, in_app_iff. intros [Hi|[Hi|[]]].
      * exact (Hdis k' (or_intror Hk') Hi).
      * cbn in Hi. subst k'. exact (Hk Hk').
Qed.

(** X7: when the base URL carries none of the parameters' names and the
    names are distinct, [fetch] sends the base URL's parameters followed
    by exactly the parameters whose value is non-empty, in their order. *)
Theorem fetch_sends_nonempty (init params : list (string * string)) :
  List.NoDup (map fst params) ->
  (forall k, In k (map fst params) -> ~ In k (map fst init)) ->
  fetch_params init params = init ++ List.filter (fun kv => negb (String.eqb kv.2 "")) params.
Proof. exact (fetch_params_append init params). Qed.

(** Witness of X7: an empty [q] is dropped behind a base parameter. *)
Lemma fetch_sends_nonempty_witness :
  fetch_params [("key", "1")] [("q", ""); ("type", "skill")] = [("key", "1"); ("type", "skill")].
Proof.
  rewrite (fetch_sends_nonempty [("key", "1")] [("q", ""); ("type", "skill")]).
  - reflexivity.
  - repeat constructor; cbn; intuition discriminate.
  - cbn. intros k [<-|[<-|[]]] [H|[]]; discriminate H.
Defined.

Lemma search_keys_nodup (query : string) (type : option string) (limit offset : option Z) :
  List.NoDup (map fst (search_params query type limit offset)).
Proof. repeat constructor; cbn; intuition discriminate. Qed.

(** X8: from a base URL without parameters, [search] sends [q] only for
    a non-empty query and [type] only for a non-empty type, and always
    [limit] (5 by default) and [offset] (0 by default); [getInstallInfo]
    sends [name] and [type] only when non-empty. *)
Theorem search_request_params (query name : string) (type : option string) (limit offset : option Z) :
  fetch_params [] (search_params query type limit offset) =
    (if String.eqb query "" then [] else [("q", query)])
    ++ (if String.eqb (nullish type "") "" then [] else [("type", nullish type "")])
    ++ [("limit", Str.of_Z (nullish limit 5)); ("offset", Str.of_Z (nullish offset 0))]
  /\ fetch_params [] (install_info_params name type) =
    (if String.eqb name "" then [] else [("name", name)])
    ++ (if String.eqb (nullish type "") "" then [] else [("type", nullish type "")]).
Proof.
  split.
  - rewrite fetch_params_append by (exact (search_keys_nodup query type limit offset)
                                    || (intros k _ [])).
    unfold search_params. cbn [List.filter fst snd app].
    rewrite !of_Z_nonempty.
    destruct (String.eqb query ""), (String.eqb (nullish type "") ""); reflexivity.
  - rewrite fetch_params_append
      by ((repeat constructor; cbn; intuition discriminate) || (intros k _ [])).
    unfold install_info_params. cbn [List.filter fst snd app].
    destruct (String.eqb name ""), (String.eqb (nullish type "") ""); reflexivity.
Qed.

(** ** The trending tool *)

Lemma trending_fold_prefix (fmt : TrendItem -> Z -> string) (q : string) (l : list TrendItem)
    (acc : string * Z) :
  Str.startsWith q acc.1 = true -> Str.startsWith q (fold_left (trending_line fmt) l acc).1 = true.
Proof.
  revert acc; induction l as [|r l IH]; intros acc H; [exact H|].
  cbn [fold_left]. apply IH. unfold trending_line. cbn [fst]. apply startsWith_app_r. exact H.
Qed.

(** X9: for a non-empty period other than [day] and [month] (say
    [year]), [vibeclaw_trending] requests that period from the index, and
    when the index answers with data its heading still says [this week]. *)
Theorem trending_label_vs_request (fmt : TrendItem -> Z -> string)
    (fetch : string -> list (string * string) -> outcome (bool * list TrendItem))
    (p : string) (type : option string) (limit : option Z) (data : list TrendItem) :
  p <> "" -> p <> "day" -> p <> "month" ->
  fetch "/trending" (fetch_params [] (trending_params (Some p) type (Some (nullish limit 5))))
    = Ok (true, data) ->
  data <> [] ->
  In ("period", p) (fetch_params [] (trending_params (Some p) type (Some (nullish limit 5))))
  /\ Str.startsWith ("Trending " +:+ nullish type "resources" +:+ " " +:+ "this week" +:+ " on Vibe Index:")
       (trending_execute fmt fetch [] (Some p) type limit) = true.
Proof.
  intros Hp Hd Hm Hf Hdata. split.
  - rewrite fetch_params_append
      by ((repeat constructor; cbn; intuition discriminate) || (intros k _ [])).
    cbn [app]. apply filter_In. split; [left; reflexivity|].
    cbn [fst snd]. now rewrite (proj2 (String.eqb_neq p "") Hp).
  - unfold trending_execute. change (nullish (Some p) "week") with p. rewrite Hf.
    destruct data as [|d ds]; [congruence|]. cbn [negb orb length Nat.eqb opt_is].
    rewrite (proj2 (String.eqb_neq p "day") Hd), (proj2 (String.eqb_neq p "month") Hm).
    apply startsWith_app_r, trending_fold_prefix. cbn [fst].
    rewrite !startsWith_app_l. apply startsWith_app'.
Qed.

(** Witness of X9: the period [year] with one trending item. *)
Lemma trending_label_vs_request_witness :
  In ("period", "year") (fetch_params [] (trending_params (Some "year") None (Some (nullish None 5))))
  /\ Str.startsWith ("Trending " +:+ nullish None "resources" +:+ " " +:+ "this week" +:+ " on Vibe Index:")
       (trending_execute (fun _ _ => "") (fun _ _ => Ok (true, [trend0])) [] (Some "year") None None)
     = true.
Proof.
  apply (trending_label_vs_request (fun _ _ => "") (fun _ _ => Ok (true, [trend0]))
           "year" None None [trend0]);
    [discriminate|discriminate|discriminate|reflexivity|discriminate].
Defined.

(** ** Install, then list *)

Lemma join_root_child (root s : string) :
  normal_abs root -> good_seg s = true -> NPath.join [root; s] = root +:+ "/" +:+ s.
Proof.
  intros [segs [Hne [Hall ->]]] Hs. rewrite join_child by assumption.
  rewrite join_segs_snoc by exact Hne. now rewrite str_app_assoc.
Qed.

Lemma join_three (a b c : string) :
  String.eqb a "" = false -> String.eqb b "" = false -> String.eqb c "" = false ->
  NPath.join [a; b; c] = NPath.normalize (a +:+ "/" +:+ b +:+ "/" +:+ c).
Proof.
  intros Ha Hb Hc. unfold NPath.join.
  rewrite filter_cons_True by (rewrite Ha; exact I).
  rewrite filter_cons_True by (rewrite Hb; exact I).
  rewrite filter_cons_True by (rewrite Hc; exact I).
  reflexivity.
Qed.

(** the Install Record path of [list] is the one [install] writes *)
Lemma record_path_eq (root s x : string) :
  normal_abs root -> good_seg s = true -> String.eqb x "" = false ->
  NPath.join [root; s; x] = NPath.join [NPath.join [root; s]; x].
Proof.
  intros Hr Hs Hx.
  assert (Hre : String.eqb root "" = false)
    by (apply String.eqb_neq, normal_abs_nonempty, Hr).
  rewrite join_three by (exact Hre || exact (good_seg_nonempty s Hs) || exact Hx).
  rewrite (join_root_child root s Hr Hs).
  rewrite join_two by (exact Hx || (destruct root; [discriminate|reflexivity])).
  now rewrite !str_app_assoc.
Qed.

Lemma strip_prefix_app (a b : string) : strip_prefix a (a +:+ b) = Some b.
Proof.
  induction a as [|c a IH]; [destruct b; reflexivity|].
  cbn [strip_prefix String.append]. now rewrite Ascii.eqb_refl.
Qed.

Lemma child_name_child (root s : string) :
  good_seg s = true -> child_name root (root +:+ "/" +:+ s) = Some s.
Proof.
  intros Hs. unfold child_name. rewrite <- str_app_assoc, strip_prefix_app.
  rewrite (good_seg_nonempty s Hs), (good_seg_no_slash s Hs). reflexivity.
Qed.

(** [mkdir -p] on a normalized absolute path creates each of its prefixes *)
Lemma prefixes_mem (L : list string) (k : nat) :
  Forall (fun x => no_slash x = true) L -> (1 <= k <= length L)%nat ->
  In ("/" +:+ NPath.join_segs (take k L)) (prefixes ("/" +:+ NPath.join_segs L)).
Proof.
  intros Hns Hk.
  assert (HL : L <> []) by (destruct L; [cbn in Hk; lia|discriminate]).
  assert (Hk' : take k L <> []) by (destruct L, k; cbn in *; try lia; discriminate).
  unfold prefixes. rewrite split_slash_cons, split_join by assumption.
  apply list_elem_of_In, list_elem_of_filter. split.
  - destruct (NPath.join_segs (take k L)); exact I.
  - apply list_elem_of_In, in_map_iff. exists (S k). split.
    + cbn [take]. rewrite join_segs_cons by exact Hk'. reflexivity.
    + apply in_seq. cbn [length]. lia.
Qed.

Lemma dirs_write (fs : fsys) (p c : string) : dirs (step fs (OWrite p c)) = dirs fs.
Proof. unfold step. destruct (can_write fs p); reflexivity. Qed.

Lemma dirs_mkdir (fs : fsys) (p : string) :
  can_mkdir fs p = true -> dirs (step fs (OMkdir p)) = dirs fs ∪ list_to_set (prefixes p).
Proof. intros H. unfold step. rewrite H. reflexivity. Qed.

(** X1: at a normalized absolute root, after any [install] that succeeds
    without reporting [alreadyInstalled], [list] reports the sanitized
    name. *)
Theorem install_then_listed (root cwd owner repo raw : string) (force : bool) (w w' : world)
    (r : InstallResult) :
  normal_abs root ->
  installSkillFromGitHub root cwd owner repo raw force w = (Ok r, w') ->
  success r = true -> alreadyInstalled r = None ->
  exists s l, sanitizeSkillName root cwd raw = Some s
    /\ fst (listInstalledSkills root w') = Ok l /\ In s l.
Proof.
  intros Hroot H Hs Ha.
  destruct (install_fresh root cwd owner repo raw force w w' r H Hs Ha)
    as [s [c [u [fetched [Es [_ [_ [Hw' [Hm [Hw1 Hw2]]]]]]]]]].
  assert (Hg : good_seg s = true) by exact (sanitize_some_good root cwd raw s Hroot Es).
  pose (fs' := step (step (step (cur w) (OMkdir (NPath.join [root; s])))
                          (OWrite (NPath.join [NPath.join [root; s]; "SKILL.md"]) c))
                    (OWrite (NPath.join [NPath.join [root; s]; ".vibeclaw.json"])
                            (meta_json (w_now w) owner repo u raw))).
  assert (Hc : cur w' = fs').
  { rewrite Hw', cur_emits.
    change (OAccess (NPath.join [NPath.join [root; s]; "SKILL.md"]) :: map OFetch fetched ++
            [OMkdir (NPath.join [root; s]);
             OWrite (NPath.join [NPath.join [root; s]; "SKILL.md"]) c;
             OWrite (NPath.join [NPath.join [root; s]; ".vibeclaw.json"])
               (meta_json (w_now w) owner repo u raw)])
      with ((OAccess (NPath.join [NPath.join [root; s]; "SKILL.md"]) :: map OFetch fetched) ++
            [OMkdir (NPath.join [root; s]);
             OWrite (NPath.join [NPath.join [root; s]; "SKILL.md"]) c;
             OWrite (NPath.join [NPath.join [root; s]; ".vibeclaw.json"])
               (meta_json (w_now w) owner repo u raw)]).
    rewrite replay_app, replay_access_fetches. reflexivity. }
  assert (Hd : forall q, In q (prefixes (NPath.join [root; s])) -> is_dir fs' q = true).
  { intros q Hq. unfold fs', is_dir. rewrite !dirs_write, (dirs_mkdir _ _ Hm).
    apply bool_decide_eq_true, elem_of_union_r, elem_of_list_to_set, list_elem_of_In. exact Hq. }
  destruct Hroot as [segs [Hne [Hall Hr]]] eqn:Hroot'.
  assert (Hall' : Forall (fun x => no_slash x = true) (segs ++ [s]))
    by (apply Forall_good_no_slash, Forall_app; split; [exact Hall|now constructor]).
  assert (Hjoin : NPath.join [root; s] = "/" +:+ NPath.join_segs (segs ++ [s]))
    by (rewrite Hr; apply join_child; assumption).
  assert (Hroot_dir : is_dir fs' root = true).
  { apply Hd. rewrite Hjoin, Hr.
    rewrite <- (take_app_length segs [s]) at 1.
    apply prefixes_mem; [exact Hall'|].
    rewrite length_app. destruct segs; [contradiction|cbn [length]; lia]. }
  assert (Hchild_dir : is_dir fs' (root +:+ "/" +:+ s) = true).
  { rewrite <- (join_root_child root s Hroot Hg). apply Hd. rewrite Hjoin.
    rewrite <- (firstn_all (segs ++ [s])) at 1.
    apply prefixes_mem; [exact Hall'|].
    rewrite length_app. cbn [length]. lia. }
  assert (Hmeta : exists_path fs' (NPath.join [root; s; ".vibeclaw.json"]) = true).
  { rewrite (record_path_eq root s ".vibeclaw.json" Hroot Hg eq_refl).
    unfold exists_path, fs'. now rewrite (is_file_write_same _ _ _ Hw2). }
  rewrite list_run, Hc, Hroot_dir.
  eexists s, _. split; [exact Es|]. split; [reflexivity|].
  apply filter_In. split.
  - apply list_elem_of_In, elem_of_elements. unfold child_set.
    apply elem_of_list_to_set, list_elem_of_omap. exists (root +:+ "/" +:+ s). split.
    + apply elem_of_elements, elem_of_union_r. exact (bool_decide_eq_true_1 _ Hchild_dir).
    + exact (child_name_child root s Hg).
  - now rewrite Hchild_dir, Hmeta.
Qed.

(** Witness of X1: a fresh install of [x] at the default root. *)
Lemma install_then_listed_witness :
  normal_abs root0 /\
  match installSkillFromGitHub root0 "/" "o" "r" "x" false (world_at fs_home net_fourth) with
  | (Ok r, w') =>
      success r = true /\ alreadyInstalled r = None /\
      exists s l, sanitizeSkillName root0 "/" "x" = Some s
        /\ fst (listInstalledSkills root0 w') = Ok l /\ In s l
  | _ => False
  end.
Proof.
  split; [exact normal_abs_root0|].
  destruct (installSkillFromGitHub root0 "/" "o" "r" "x" false (world_at fs_home net_fourth))
    as [[r|e] w'] eqn:E.
  2:{ vm_compute in E. discriminate E. }
  assert (Hr : success r = true /\ alreadyInstalled r = None).
  { pose proof E as E'. vm_compute in E'. injection E' as <- _. split; reflexivity. }
  destruct Hr as [Hs Ha]. split; [exact Hs|]. split; [exact Ha|].
  exact (install_then_listed root0 "/" "o" "r" "x" false (world_at fs_home net_fourth) w' r
           normal_abs_root0 E Hs Ha).
Defined.
